(** * Rag_system_aws: a shallow embedding of the conversation store and of
      the retrieval-augmented question flow

    Sources embedded here:
    - [memory_manager.py]: class [MemoryManager], a switch over the memory
      classes of the external memory library;
    - [Rag_democode.py]: class [RetrievalModel], function [query_bedrock]
      and the body of the user-interface script.

    Python values are modelled as follows.
    - [str] is [string]; every character of the model is one code point
      below 256, so the model covers the strings of the Latin-1 range.
    - [int] is [Z]; [float] values are only carried around by the program
      (scores, embedding coordinates, the sampling temperature) and are
      represented by the rational they denote.
    - a raised exception is the left injection of a sum; the right injection
      is the normal result. *)

From Stdlib Require Import ZArith QArith String Ascii List Bool Lia.
From stdpp Require Import base option list strings gmap.
Close Scope Q_scope.
Set Warnings "-register-all".

(** ** Python strings *)

Module PyStr.

(** [c.isspace()] for a code point below 256: TAB, LF, VT, FF, CR, the
    four information separators, SPACE, NEL and NO-BREAK SPACE. *)
Definition isspace (c : ascii) : bool :=
  let n := nat_of_ascii c in
  ((9 <=? n) && (n <=? 13)) || ((28 <=? n) && (n <=? 32))
  || (n =? 133) || (n =? 160).

(** The lower-case mapping of one code point below 256: the letters A-Z
    and the accented capitals U+00C0-U+00DE (the multiplication sign
    U+00D7 apart) move up by 32. *)
Definition lower_char (c : ascii) : ascii :=
  let n := nat_of_ascii c in
  if ((65 <=? n) && (n <=? 90))
     || ((192 <=? n) && (n <=? 222) && negb (n =? 215))
  then ascii_of_nat (n + 32) else c.

(** [s.lower()] *)
Fixpoint lower (s : string) : string :=
  match s with
  | EmptyString => EmptyString
  | String c s' => String (lower_char c) (lower s')
  end.

(** [s.lstrip()] *)
Fixpoint lstrip (s : string) : string :=
  match s with
  | EmptyString => EmptyString
  | String c s' => if isspace c then lstrip s' else s
  end.

(** [s.rstrip()] *)
Fixpoint rstrip (s : string) : string :=
  match s with
  | EmptyString => EmptyString
  | String c s' =>
      match rstrip s' with
      | EmptyString => if isspace c then EmptyString else String c EmptyString
      | r => String c r
      end
  end.

(** [s.strip()] *)
Definition strip (s : string) : string := rstrip (lstrip s).

(** [bool(s)]: a string is falsy exactly when it is empty. *)
Definition truthy (s : string) : bool :=
  match s with EmptyString => false | String _ _ => true end.

(** A blank query: no character at all, or white space only. *)
Fixpoint blank (s : string) : bool :=
  match s with
  | EmptyString => true
  | String c s' => isspace c && blank s'
  end.

End PyStr.

(** ** Exceptions *)

(** The classes of the exceptions the program can meet.  [BaseExceptionOnly]
    stands for the classes that derive from [BaseException] but not from
    [Exception] ([KeyboardInterrupt], [SystemExit]); [OtherException] for
    any other subclass of [Exception] raised by a collaborator. *)
Inductive exc_class : Type :=
  | ValueError
  | KeyError
  | TypeError
  | OtherException (name : string)
  | BaseExceptionOnly (name : string).

(** An exception object: its class and [str(e)]. *)
Record exn : Type := Exn { exn_class : exc_class; exn_str : string }.

(** [isinstance(e, Exception)] *)
Definition is_Exception (e : exn) : bool :=
  match exn_class e with
  | BaseExceptionOnly _ => false
  | _ => true
  end.

(** The outcome of a call that can raise. *)
Definition result (A : Type) : Type := exn + A.

Definition raise {A : Type} (e : exn) : result A := inl e.
Definition ok {A : Type} (a : A) : result A := inr a.

Definition rbind {A B : Type} (r : result A) (f : A -> result B) : result B :=
  match r with
  | inl e => inl e
  | inr a => f a
  end.

Notation "'try!' x ':=' r 'in' k" := (rbind r (fun x => k))
  (at level 10, x name, r at level 100, k at level 200).

(** ** The external memory library *)

(** The messages kept by a chat memory: [HumanMessage(content=...)] and
    [AIMessage(content=...)]. *)
Inductive BaseMessage : Type :=
  | HumanMessage (content : string)
  | AIMessage (content : string).

(** What a memory object hands back under its memory key: the list of
    messages when it was built with [return_messages=True], one formatted
    string otherwise. *)
Inductive history_value : Type :=
  | Messages (ms : list BaseMessage)
  | Text (s : string).

(** The three classes of the library whose reduction of the history needs a
    language model. *)
Inductive llm_class : Type :=
  | ConversationSummaryBufferMemory
  | ConversationTokenBufferMemory
  | ConversationKGMemory.

(** Modelled from the spec: the external memory library ([langchain.memory])
    is not part of the repository, and for the classes that summarise, cap
    by tokens or extract a knowledge graph the spec delegates the reduction
    algorithm to that collaborator.
    What the spec does not describe is an interface here: for these three
    classes an opaque object state, a constructor taking the keyword
    arguments the source passes ([memory_key], and [return_messages] when
    given) and the three methods [MemoryManager] calls; and the text form
    of a history, which a buffer hands back when it is not asked for
    messages. *)
Class MemoryLibrary : Type := {
  get_buffer_string : list BaseMessage -> string;
  llm_object : Type;
  llm_new : llm_class -> string -> option bool -> result llm_object;
  llm_save_context : llm_class -> llm_object -> string -> string -> result llm_object;
  llm_load_memory_variables : llm_class -> llm_object -> result (gmap string history_value);
  llm_clear : llm_class -> llm_object -> llm_object
}.

Module LangChain.
Section Memory.
Context `{MemoryLibrary}.

(** A memory object of the library, as [MemoryManager] can build it. *)
Inductive Memory : Type :=
  | ConversationBufferMemory
      (memory_key : string) (return_messages : bool)
      (chat_memory : list BaseMessage)
  | ConversationBufferWindowMemory
      (k : Z) (memory_key : string) (return_messages : bool)
      (chat_memory : list BaseMessage)
  | LLMBacked (c : llm_class) (o : llm_object).

(** What a buffer shows of its messages. *)
Definition buffer_view (return_messages : bool) (ms : list BaseMessage)
  : history_value :=
  if return_messages then Messages ms else Text (get_buffer_string ms).

(** Python's [ms[-n:]] for [n > 0]: the last [n] elements, all of them
    when there are fewer. *)
Definition last_n {A : Type} (n : nat) (ms : list A) : list A :=
  drop (length ms - n) ms.

(** Modelled from the spec: [save_context] of the external memory library.
    "record appends one Exchange pair": the user's input as a human
    message, then the assistant's output as an AI message. *)
Definition save_context (m : Memory) (input output : string) : result Memory :=
  match m with
  | ConversationBufferMemory key rm ms =>
      ok (ConversationBufferMemory key rm
            (ms ++ [HumanMessage input; AIMessage output]))
  | ConversationBufferWindowMemory k key rm ms =>
      ok (ConversationBufferWindowMemory k key rm
            (ms ++ [HumanMessage input; AIMessage output]))
  | LLMBacked c o =>
      try! o' := llm_save_context c o input output in ok (LLMBacked c o')
  end.

(** Modelled from the spec: [load_memory_variables] of the external memory
    library.  "history returns the strategy's current materialized view
    (last N turns for windowed, all turns for full-buffer)"; a turn is two
    messages, and a window that is not positive shows nothing.  The view
    is returned in a dictionary, under the memory key of the object. *)
Definition load_memory_variables (m : Memory)
  : result (gmap string history_value) :=
  match m with
  | ConversationBufferMemory key rm ms =>
      ok {[ key := buffer_view rm ms ]}
  | ConversationBufferWindowMemory k key rm ms =>
      ok {[ key := buffer_view rm
                     (if (0 <? k)%Z then last_n (Z.to_nat (k * 2)) ms else []) ]}
  | LLMBacked c o => llm_load_memory_variables c o
  end.

(** Modelled from the spec: [clear] of the external memory library.
    "reset discards all history unconditionally". *)
Definition clear (m : Memory) : Memory :=
  match m with
  | ConversationBufferMemory key rm _ => ConversationBufferMemory key rm []
  | ConversationBufferWindowMemory k key rm _ =>
      ConversationBufferWindowMemory k key rm []
  | LLMBacked c o => LLMBacked c (llm_clear c o)
  end.

End Memory.
End LangChain.

Import LangChain.

(** ** memory_manager.py *)

Section MemoryManager.
Context `{MemoryLibrary}.

(** An instance of class [MemoryManager]: its four attributes. *)
Record MemoryManager : Type := {
  memory_type : string;
  window_size : Z;
  token_limit : Z;
  memory : Memory
}.

(** [MemoryManager._initialize_memory]; [self] is read for [window_size]
    only. *)
Definition _initialize_memory (self_window_size : Z) (memory_type : string)
  : result Memory :=
  if String.eqb memory_type "buffer" then
    ok (ConversationBufferMemory "chat_history" true [])
  else if String.eqb memory_type "window" then
    ok (ConversationBufferWindowMemory self_window_size "chat_history" true [])
  else if String.eqb memory_type "summary" then
    ok (ConversationBufferMemory "chat_history" true [])
  else if String.eqb memory_type "summary_buffer" then
    try! o := llm_new ConversationSummaryBufferMemory "chat_history" (Some true) in
    ok (LLMBacked ConversationSummaryBufferMemory o)
  else if String.eqb memory_type "token_buffer" then
    try! o := llm_new ConversationTokenBufferMemory "chat_history" (Some true) in
    ok (LLMBacked ConversationTokenBufferMemory o)
  else if String.eqb memory_type "kg" then
    try! o := llm_new ConversationKGMemory "chat_history" None in
    ok (LLMBacked ConversationKGMemory o)
  else
    raise (Exn ValueError ("Unsupported memory type: " ++ memory_type)).

(** [MemoryManager.__init__]: the constructor either raises or yields the
    new instance. *)
Definition __init__ (memory_type : string) (window_size token_limit : Z)
  : result MemoryManager :=
  let self_memory_type := PyStr.lower memory_type in
  try! m := _initialize_memory window_size self_memory_type in
  ok {| memory_type := self_memory_type;
        window_size := window_size;
        token_limit := token_limit;
        memory := m |}.

(** The default arguments of the constructor. *)
Definition default_memory_type : string := "buffer".
Definition default_window_size : Z := 3.
Definition default_token_limit : Z := 1000.

Definition with_memory (self : MemoryManager) (m : Memory) : MemoryManager :=
  {| memory_type := memory_type self;
     window_size := window_size self;
     token_limit := token_limit self;
     memory := m |}.

(** [MemoryManager.save_conversation]: the memory object is updated in
    place; the updated instance is returned. *)
Definition save_conversation (self : MemoryManager) (user_input bot_output : string)
  : result MemoryManager :=
  try! m := save_context (memory self) user_input bot_output in
  ok (with_memory self m).

(** [MemoryManager.get_chat_history]:
    [self.memory.load_memory_variables({}).get("chat_history", [])]. *)
Definition get_chat_history (self : MemoryManager) : result history_value :=
  try! d := load_memory_variables (memory self) in
  ok (default (Messages []) (d !! "chat_history")).

(** [MemoryManager.clear_memory] *)
Definition clear_memory (self : MemoryManager) : MemoryManager :=
  with_memory self (clear (memory self)).

End MemoryManager.

(** ** JSON values, as Python sees them *)

(** A value parsed from JSON or about to be serialised: [None], [bool],
    [int], [float], [str], [list] and [dict].  A dictionary is the list of
    its items in insertion order; its keys are distinct. *)
Inductive json : Type :=
  | JNull
  | JBool (b : bool)
  | JInt (z : Z)
  | JFloat (q : Q)
  | JStr (s : string)
  | JList (l : list json)
  | JDict (d : list (string * json)).

Module Py.

Fixpoint dict_get (d : list (string * json)) (key : string) : option json :=
  match d with
  | [] => None
  | (k, v) :: d' => if String.eqb k key then Some v else dict_get d' key
  end.

(** [repr(key)] for a key without quotes or escapes. *)
Definition repr (key : string) : string := ("'" ++ key ++ "'")%string.

Definition not_subscriptable (ty : string) : exn :=
  Exn TypeError ("'" ++ ty ++ "' object is not subscriptable").

(** [v[key]] for a string [key]: a dictionary gives the value or raises
    [KeyError]; every other value raises [TypeError]. *)
Definition getitem (v : json) (key : string) : result json :=
  match v with
  | JDict d =>
      match dict_get d key with
      | Some x => ok x
      | None => raise (Exn KeyError (repr key))
      end
  | JList _ =>
      raise (Exn TypeError "list indices must be integers or slices, not str")
  | JStr _ => raise (Exn TypeError "string indices must be integers, not 'str'")
  | JNull => raise (not_subscriptable "NoneType")
  | JBool _ => raise (not_subscriptable "bool")
  | JInt _ => raise (not_subscriptable "int")
  | JFloat _ => raise (not_subscriptable "float")
  end.

Definition not_iterable (ty : string) : exn :=
  Exn TypeError ("'" ++ ty ++ "' object is not iterable").

Fixpoint chars (s : string) : list json :=
  match s with
  | EmptyString => []
  | String c s' => JStr (String c EmptyString) :: chars s'
  end.

(** The elements [for x in v] runs through: the items of a list, the keys
    of a dictionary, the characters of a string; anything else raises. *)
Definition iterate (v : json) : result (list json) :=
  match v with
  | JList l => ok l
  | JDict d => ok (map (fun kv => JStr (fst kv)) d)
  | JStr s => ok (chars s)
  | JNull => raise (not_iterable "NoneType")
  | JBool _ => raise (not_iterable "bool")
  | JInt _ => raise (not_iterable "int")
  | JFloat _ => raise (not_iterable "float")
  end.

(** A list comprehension whose element expression can raise: the elements
    are computed from left to right and the first exception ends it. *)
Fixpoint comprehension {A B : Type} (f : A -> result B) (l : list A)
  : result (list B) :=
  match l with
  | [] => ok []
  | a :: l' =>
      try! b := f a in
      try! bs := comprehension f l' in
      ok (b :: bs)
  end.

End Py.

(** ** Calls to the collaborators *)

(** The calls that leave the process, in the order they are made. *)
Inductive event : Type :=
  | EvEncode (text : string)
  | EvGet (url : string) (body : json) (auth : string * string)
  | EvInvokeModel (modelId : string) (body : json) (contentType : string).

(** What [requests.get] returns: the status of the reply and the outcome of
    [res.json()]. *)
Record Response : Type := {
  status_code : Z;
  response_json : result json
}.

(** The collaborators of the program, as functions of the request.
    - [encode text] is [embedder.encode(text).tolist()];
    - [requests_get url body auth] is [requests.get(url, json=body, auth=auth)];
    - [invoke_model modelId body contentType] is the reply of
      [bedrock.invoke_model], read and parsed: [body] is the value whose
      JSON text is sent, the result is [json.loads(response["body"].read())]
      or the exception raised on the way;
    - [json_dumps v] is [json.dumps(v, indent=2)]. *)
Record Collaborators : Type := {
  encode : string -> result (list Q);
  requests_get : string -> json -> string * string -> result Response;
  invoke_model : string -> json -> string -> result json;
  json_dumps : json -> string
}.

(** A computation that calls collaborators: the calls made, and the result
    or the exception that ended it. *)
Definition io (A : Type) : Type := list event * result A.

Definition io_ret {A : Type} (a : A) : io A := ([], ok a).

Definition io_bind {A B : Type} (m : io A) (f : A -> io B) : io B :=
  match m with
  | (t, inl e) => (t, inl e)
  | (t, inr a) => let '(t', r) := f a in (t ++ t', r)
  end.

(** A call to a collaborator: it is recorded, then it returns or raises. *)
Definition call {A : Type} (ev : event) (r : result A) : io A := ([ev], r).

(** A step that calls nobody. *)
Definition pure {A : Type} (r : result A) : io A := ([], r).

Notation "'do!' x ':=' m 'in' k" := (io_bind m (fun x => k))
  (at level 10, x name, m at level 100, k at level 200).

Definition trace {A : Type} (m : io A) : list event := fst m.
Definition outcome_of {A : Type} (m : io A) : result A := snd m.

Definition is_search (ev : event) : bool :=
  match ev with EvGet _ _ _ => true | _ => false end.

Definition is_embedding (ev : event) : bool :=
  match ev with EvEncode _ => true | _ => false end.

(** The calls of the Retriever: embedding and search. *)
Definition is_retriever_call (ev : event) : bool :=
  is_search ev || is_embedding ev.

(** The calls of the Generator. *)
Definition is_generator_call (ev : event) : bool :=
  match ev with EvInvokeModel _ _ _ => true | _ => false end.

(** ** Rag_democode.py *)

Definition OPENSEARCH_URL : string := "http://localhost:9200".
Definition INDEX_NAME : string := "rag-index".

Section Rag.
Variable world : Collaborators.

(** An instance of [RetrievalModel]; its [embedder] is the collaborator. *)
Record RetrievalModel : Type := {
  index_name : string;
  opensearch_url : string
}.

(** [RetrievalModel.embed_text] *)
Definition embed_text (self : RetrievalModel) (text : string) : io (list Q) :=
  call (EvEncode text) (encode world text).

(** The dictionary [search_query] built by [retrieve]. *)
Definition search_query (query_emb : list Q) (top_k : Z) : json :=
  JDict [("size", JInt top_k);
         ("query",
          JDict [("knn",
                  JDict [("embedding",
                          JDict [("vector", JList (map JFloat query_emb));
                                 ("k", JInt top_k)])])])].

Definition search_url (self : RetrievalModel) : string :=
  (opensearch_url self ++ "/" ++ index_name self ++ "/_search")%string.

(** [RetrievalModel.retrieve] *)
Definition retrieve (self : RetrievalModel) (query : string) (top_k : Z)
  : io json :=
  do! query_emb := embed_text self query in
  let body := search_query query_emb top_k in
  let url := search_url self in
  do! res := call (EvGet url body ("admin", "admin"))
                  (requests_get world url body ("admin", "admin")) in
  do! parsed := pure (response_json res) in
  do! outer := pure (Py.getitem parsed "hits") in
  do! hits := pure (Py.getitem outer "hits") in
  io_ret hits.

(** The part of [retrieve] that follows the search request. *)
Definition hits_of (res : Response) : result json :=
  try! parsed := response_json res in
  try! outer := Py.getitem parsed "hits" in
  Py.getitem outer "hits".

(** The body sent by [query_bedrock]. *)
Definition bedrock_body (prompt : string) : json :=
  JDict [("prompt", JStr prompt);
         ("max_tokens_to_sample", JInt 300);
         ("temperature", JFloat (2 # 10)%Q)].

(** [query_bedrock] *)
Definition query_bedrock (prompt : string) : io json :=
  do! reply := call (EvInvokeModel "anthropic.claude-v2" (bedrock_body prompt)
                       "application/json")
                    (invoke_model world "anthropic.claude-v2"
                       (bedrock_body prompt) "application/json") in
  pure (Py.getitem reply "completion").

(** [retriever = RetrievalModel(embedder, INDEX_NAME, OPENSEARCH_URL)] *)
Definition retriever : RetrievalModel :=
  {| index_name := INDEX_NAME; opensearch_url := OPENSEARCH_URL |}.

(** One entry of [st.session_state.messages]. *)
Record chat_message : Type := { role : string; content : json }.

(** Step 2 of the script: one dictionary [{id, score, content}] per
    retrieved document. *)
Definition context_entry (doc : json) : result json :=
  try! id := Py.getitem doc "_id" in
  try! score := Py.getitem doc "_score" in
  try! source := Py.getitem doc "_source" in
  try! text := Py.getitem source "content" in
  ok (JDict [("id", id); ("score", score); ("content", text)]).

Definition context_json (retrieved_docs : json) : result string :=
  try! docs := Py.iterate retrieved_docs in
  try! entries := Py.comprehension context_entry docs in
  ok (json_dumps world (JList entries)).

(** Step 3 of the script: the prompt.  The apostrophe of the template is
    the code point U+2019, outside the range of the string model; it is
    carried as the three bytes of its UTF-8 form. *)
Definition build_prompt (context question : string) : string :=
  ("You are a helpful assistant.
I will give you JSON search results from OpenSearch.
Use them to answer the user’s question clearly and concisely.
If the information is not available, say so.

Search Results (JSON):
" ++ context ++ "

Question: " ++ question ++ "
Answer:")%string.

(** Steps 1 to 4 of the script, the part of the [try] block that can
    raise: retrieve, serialise, build the prompt, ask the model. *)
Definition answer_flow (question : string) : io json :=
  do! retrieved_docs := retrieve retriever question 3 in
  do! context := pure (context_json retrieved_docs) in
  let prompt := build_prompt context question in
  query_bedrock prompt.

(** How a run of the script ends: [st.rerun()] was called, the script ran
    on to its end, or an exception left it. *)
Inductive run_end : Type :=
  | Rerun (messages : list chat_message)
  | Continue (messages : list chat_message)
  | Uncaught (e : exn) (messages : list chat_message).

Definition messages_of (r : run_end) : list chat_message :=
  match r with
  | Rerun ms | Continue ms | Uncaught _ ms => ms
  end.

Definition escaped (r : run_end) : bool :=
  match r with Uncaught _ _ => true | _ => false end.

Definition user_message (text : string) : chat_message :=
  {| role := "user"; content := JStr text |}.

Definition assistant_message (answer : json) : chat_message :=
  {| role := "assistant"; content := answer |}.

(** [f"Error: {e}"] *)
Definition error_text (e : exn) : string := ("Error: " ++ exn_str e)%string.

(** The main flow of the script, from [if send_clicked and
    user_text.strip():] to [st.rerun()].  [except Exception] catches the
    instances of [Exception]; any other exception leaves the script. *)
Definition main_flow (send_clicked : bool) (user_text : string)
    (messages : list chat_message) : list event * run_end :=
  if send_clicked && PyStr.truthy (PyStr.strip user_text) then
    let messages := messages ++ [user_message (PyStr.strip user_text)] in
    match answer_flow (PyStr.strip user_text) with
    | (t, inr answer) => (t, Rerun (messages ++ [assistant_message answer]))
    | (t, inl e) =>
        if is_Exception e
        then (t, Rerun (messages ++ [assistant_message (JStr (error_text e))]))
        else (t, Uncaught e messages)
    end
  else ([], Continue messages).

(** One run of the script on the session state: [messages] is created when
    the session has none, a click on Clear empties it and reruns, then the
    main flow.  The panel of retrieved documents that follows the main
    flow is guarded by the condition of the main flow, which ends in
    [st.rerun()]: it is never shown. *)
Definition script (clear_clicked send_clicked : bool) (user_text : string)
    (session_messages : option (list chat_message)) : list event * run_end :=
  let messages := default [] session_messages in
  if clear_clicked then ([], Rerun [])
  else main_flow send_clicked user_text messages.

End Rag.

(** ** Vocabulary of the specification *)

(** The strategy names [MemoryManager] lists in its documentation. *)
Definition strategies : list string :=
  ["buffer"; "window"; "summary"; "summary_buffer"; "token_buffer"; "kg"].

(** An exchange: what the user said and what the assistant answered. *)
Definition exchange : Type := string * string.

(** The two messages an exchange is stored as. *)
Definition exchange_messages (x : exchange) : list BaseMessage :=
  [HumanMessage (fst x); AIMessage (snd x)].

(** The operations of the Conversation Store. *)
Inductive store_call : Type :=
  | DoRecord (user_input assistant_output : string)
  | DoHistory
  | DoReset.

Section StoreVocabulary.
Context `{MemoryLibrary}.

(** The states a store built for [memory_type] can be in: the instance the
    constructor returns, and every instance reached from it by recording
    and clearing. *)
Inductive reachable (memory_type : string) (window_size token_limit : Z)
  : MemoryManager -> Prop :=
  | reach_init mm :
      __init__ memory_type window_size token_limit = inr mm ->
      reachable memory_type window_size token_limit mm
  | reach_save mm user_input bot_output mm' :
      reachable memory_type window_size token_limit mm ->
      save_conversation mm user_input bot_output = inr mm' ->
      reachable memory_type window_size token_limit mm'
  | reach_clear mm :
      reachable memory_type window_size token_limit mm ->
      reachable memory_type window_size token_limit (clear_memory mm).

(** The objects of an LLM-backed class that exist for a memory key: those
    its constructor returns and those its methods turn them into. *)
Inductive llm_built (c : llm_class) (key : string) : llm_object -> Prop :=
  | built_new rm o :
      llm_new c key rm = inr o -> llm_built c key o
  | built_save o input output o' :
      llm_built c key o ->
      llm_save_context c o input output = inr o' ->
      llm_built c key o'
  | built_clear o :
      llm_built c key o -> llm_built c key (llm_clear c o).

(** Modelled from the spec: the contract of [clear] for the LLM-backed
    classes of the external memory library.  "reset discards all history
    unconditionally": a cleared object shows the empty sequence under its
    memory key. *)
Definition discards_on_clear : Prop :=
  forall c key o,
    llm_built c key o ->
    exists d,
      llm_load_memory_variables c (llm_clear c o) = inr d /\
      d !! key = Some (Messages []).

(** The shape of the memory object of a store, by the lowered name it was
    built for. *)
Definition well_formed (name : string) (w : Z) (m : Memory) : Prop :=
  match m with
  | ConversationBufferMemory key rm _ =>
      key = "chat_history" /\ rm = true /\ (name = "buffer" \/ name = "summary")
  | ConversationBufferWindowMemory k key rm _ =>
      k = w /\ key = "chat_history" /\ rm = true /\ name = "window"
  | LLMBacked c o =>
      llm_built c "chat_history" o /\
      name <> "buffer" /\ name <> "window" /\ name <> "summary"
  end.

(** Recording a sequence of exchanges, oldest first. *)
Fixpoint record_all (mm : MemoryManager) (xs : list exchange)
  : result MemoryManager :=
  match xs with
  | [] => ok mm
  | x :: xs' =>
      try! mm' := save_conversation mm (fst x) (snd x) in
      record_all mm' xs'
  end.

(** What a client sees of a store: the answers to its [history] calls, up
    to the first exception. *)
Fixpoint observe (mm : MemoryManager) (calls : list store_call)
  : result (list history_value) :=
  match calls with
  | [] => ok []
  | DoRecord u a :: calls' =>
      try! mm' := save_conversation mm u a in
      observe mm' calls'
  | DoHistory :: calls' =>
      try! h := get_chat_history mm in
      try! hs := observe mm calls' in
      ok (h :: hs)
  | DoReset :: calls' => observe (clear_memory mm) calls'
  end.

End StoreVocabulary.

(** Modelled from the spec: a stand-in for what the external memory library
    leaves open.  Its LLM-backed objects follow the state machine of the
    Conversation Store and reduce nothing: the object is its memory key and
    its messages, "record" appends the pair, "reset" empties, "history"
    shows what is stored.  The text form of a history has one line per
    message. *)
Definition plain_llm_memory : MemoryLibrary := {|
  get_buffer_string := fun ms =>
    String.concat (String "010"%char EmptyString)
      (map (fun m => match m with
                     | HumanMessage c => ("Human: " ++ c)%string
                     | AIMessage c => ("AI: " ++ c)%string
                     end) ms);
  llm_object := string * list BaseMessage;
  llm_new := fun _ key _ => ok (key, []);
  llm_save_context := fun _ o input output =>
    ok (fst o, snd o ++ [HumanMessage input; AIMessage output]);
  llm_load_memory_variables := fun _ o => ok {[ fst o := Messages (snd o) ]};
  llm_clear := fun _ o => (fst o, [])
|}.

(** The store of [memory_test.py]: a window of three exchanges, after its
    two calls of [save_conversation]. *)
Definition memory_test_store : @MemoryManager plain_llm_memory :=
  {| memory_type := "window"; window_size := 3; token_limit := 1000;
     memory := ConversationBufferWindowMemory 3 "chat_history" true
                 [HumanMessage "Hello"; AIMessage "Hi there!";
                  HumanMessage "What is AI?";
                  AIMessage "AI means Artificial Intelligence."] |}.

(** The score of a retrieved document. *)
Definition score_of (doc : json) : option Q :=
  match doc with
  | JDict d =>
      match Py.dict_get d "_score" with
      | Some (JFloat q) => Some q
      | Some (JInt z) => Some (inject_Z z)
      | _ => None
      end
  | _ => None
  end.

(** Scores in descending order. *)
Fixpoint descending (qs : list Q) : bool :=
  match qs with
  | [] => true
  | q :: qs' =>
      match qs' with
      | [] => true
      | q' :: _ => Qle_bool q' q && descending qs'
      end
  end.

(** A RetrievalResult for [top_k]: a sequence of at most [top_k] documents
    whose scores are in descending order. *)
Definition retrieval_result (top_k : Z) (v : json) : Prop :=
  exists docs scores,
    v = JList docs /\
    (Z.of_nat (length docs) <= top_k)%Z /\
    mapM score_of docs = Some scores /\
    descending scores = true.

(** A hit of the search service. *)
Definition hit (id : string) (score : Q) (text : string) : json :=
  JDict [("_id", JStr id); ("_score", JFloat score);
         ("_source", JDict [("content", JStr text)])].

Definition search_reply (hits : list json) : Response :=
  {| status_code := 200;
     response_json := ok (JDict [("hits", JDict [("hits", JList hits)])]) |}.

(** A stand-in for [json.dumps] in the example worlds below. *)
Definition dumps_stub (v : json) : string :=
  match v with
  | JList [] => "[]"
  | _ => "[...]"
  end.

(** A world where everything answers: one hit, one completion. *)
Definition answering_world : Collaborators := {|
  encode := fun _ => ok [1 # 2; -1 # 4]%Q;
  requests_get := fun _ _ _ => ok (search_reply [hit "d1" (9 # 10)%Q "AI is..."]);
  invoke_model := fun _ _ _ => ok (JDict [("completion", JStr "AI means...")]);
  json_dumps := dumps_stub
|}.

(** A world whose search service cannot be reached. *)
Definition unreachable_search_world : Collaborators := {|
  encode := fun _ => ok [1 # 2; -1 # 4]%Q;
  requests_get := fun _ _ _ =>
    raise (Exn (OtherException "ConnectionError") "Connection refused");
  invoke_model := fun _ _ _ => ok (JDict [("completion", JStr "AI means...")]);
  json_dumps := dumps_stub
|}.

(** A world whose search service replies with two hits, the weaker one
    first, whatever size is asked for. *)
Definition two_hits_world : Collaborators := {|
  encode := fun _ => ok [1 # 2; -1 # 4]%Q;
  requests_get := fun _ _ _ =>
    ok (search_reply [hit "d1" (1 # 10)%Q "one"; hit "d2" (9 # 10)%Q "two"]);
  invoke_model := fun _ _ _ => ok (JDict [("completion", JStr "AI means...")]);
  json_dumps := dumps_stub
|}.

(** ** More of the script and of its surroundings *)

(** The [disabled] argument of the Send button:
    [not bool(user_text.strip())]. *)
Definition send_disabled (user_text : string) : bool :=
  negb (PyStr.truthy (PyStr.strip user_text)).

(** The same collaborators, whose search service answers every request
    with the status [code] and the same body. *)
Definition with_status (code : Z) (world : Collaborators) : Collaborators := {|
  encode := encode world;
  requests_get := fun url body auth =>
    try! res := requests_get world url body auth in
    ok {| status_code := code; response_json := response_json res |};
  invoke_model := invoke_model world;
  json_dumps := json_dumps world
|}.

(** The entry of the context written for a hit of the expected shape. *)
Definition context_of_hit (id : string) (score : Q) (text : string) : json :=
  JDict [("id", JStr id); ("score", JFloat score); ("content", JStr text)].

Section MoreStoreVocabulary.
Context `{MemoryLibrary}.

(** The messages of a buffer are those of whole exchanges, oldest first. *)
Definition whole_exchanges (m : Memory) : Prop :=
  match m with
  | ConversationBufferMemory _ _ ms
  | ConversationBufferWindowMemory _ _ _ ms =>
      exists xs : list exchange, ms = flat_map exchange_messages xs
  | LLMBacked _ _ => True
  end.

(** A session with a store: build it, then make the calls. *)
Definition session (memory_type : string) (window_size token_limit : Z)
    (calls : list store_call) : result (list history_value) :=
  try! mm := __init__ memory_type window_size token_limit in
  observe mm calls.

End MoreStoreVocabulary.

(** A world whose embedder fails. *)
Definition failing_embedder_world : Collaborators := {|
  encode := fun _ => raise (Exn (OtherException "RuntimeError") "model not loaded");
  requests_get := fun _ _ _ => ok (search_reply [hit "d1" (9 # 10)%Q "AI is..."]);
  invoke_model := fun _ _ _ => ok (JDict [("completion", JStr "AI means...")]);
  json_dumps := dumps_stub
|}.

(** A world where the user interrupts the process during the embedding. *)
Definition interrupted_world : Collaborators := {|
  encode := fun _ => raise (Exn (BaseExceptionOnly "KeyboardInterrupt") "");
  requests_get := fun _ _ _ => ok (search_reply [hit "d1" (9 # 10)%Q "AI is..."]);
  invoke_model := fun _ _ _ => ok (JDict [("completion", JStr "AI means...")]);
  json_dumps := dumps_stub
|}.

(** A world whose search service has no such index: status 404 and an error
    body. *)
Definition missing_index_world : Collaborators := {|
  encode := fun _ => ok [1 # 2; -1 # 4]%Q;
  requests_get := fun _ _ _ =>
    ok {| status_code := 404;
          response_json :=
            ok (JDict [("error", JStr "index_not_found_exception");
                       ("status", JInt 404)]) |};
  invoke_model := fun _ _ _ => ok (JDict [("completion", JStr "AI means...")]);
  json_dumps := dumps_stub
|}.

(** A world whose model replies without a completion. *)
Definition no_completion_world : Collaborators := {|
  encode := fun _ => ok [1 # 2; -1 # 4]%Q;
  requests_get := fun _ _ _ => ok (search_reply [hit "d1" (9 # 10)%Q "AI is..."]);
  invoke_model := fun _ _ _ => ok (JDict [("message", JStr "throttled")]);
  json_dumps := dumps_stub
|}.

(** A world whose search service sends a second hit without its source. *)
Definition broken_hit_world : Collaborators := {|
  encode := fun _ => ok [1 # 2; -1 # 4]%Q;
  requests_get := fun _ _ _ =>
    ok (search_reply [hit "d1" (9 # 10)%Q "AI is...";
                      JDict [("_id", JStr "d2"); ("_score", JFloat (1 # 2))]]);
  invoke_model := fun _ _ _ => ok (JDict [("completion", JStr "AI means...")]);
  json_dumps := dumps_stub
|}.

(** A store built for 'Summary' that has recorded one exchange. *)
Definition summary_test_store : @MemoryManager plain_llm_memory :=
  {| memory_type := "summary"; window_size := 3; token_limit := 1000;
     memory := ConversationBufferMemory "chat_history" true
                 [HumanMessage "Hello"; AIMessage "Hi there!"] |}.

(** The store [MemoryManager(memory_type="window", window_size=3)] builds. *)
Definition fresh_window_store : @MemoryManager plain_llm_memory :=
  {| memory_type := "window"; window_size := 3; token_limit := 1000;
     memory := ConversationBufferWindowMemory 3 "chat_history" true [] |}.

(** * Properties *)

(** ** Strings *)

Module PyStrFacts.
Import PyStr.

Example lower_mixed_case : lower "Summary_Buffer" = "summary_buffer"%string.
Proof. reflexivity. Qed.

Example strip_question :
  strip (String "009"%char "  What is AI?  ") = "What is AI?"%string.
Proof. reflexivity. Qed.

Example strip_keeps_inner_space : strip " a  b " = "a  b"%string.
Proof. reflexivity. Qed.

Lemma lower_char_idem (c : ascii) : lower_char (lower_char c) = lower_char c.
Proof. destruct c as [[] [] [] [] [] [] [] []]; vm_compute; reflexivity. Qed.

(** Lowering a lowered string changes nothing. *)
Lemma lower_idem (s : string) : lower (lower s) = lower s.
Proof.
  induction s as [|c s IH]; simpl.
  - reflexivity.
  - rewrite lower_char_idem, IH. reflexivity.
Qed.

Lemma lstrip_blank (s : string) : blank s = true -> lstrip s = EmptyString.
Proof.
  induction s as [|c s IH]; simpl; intros Hb.
  - reflexivity.
  - apply andb_prop in Hb as [Hc Hs]. rewrite Hc. auto.
Qed.

(** What [lstrip] leaves is empty or starts with a visible character. *)
Lemma lstrip_head (s : string) :
  match lstrip s with
  | EmptyString => blank s = true
  | String c _ => isspace c = false /\ blank s = false
  end.
Proof.
  induction s as [|c s IH]; simpl.
  - reflexivity.
  - destruct (isspace c) eqn:Hc; simpl.
    + exact IH.
    + rewrite Hc. auto.
Qed.

Lemma rstrip_visible_head (c : ascii) (s : string) :
  isspace c = false -> rstrip (String c s) <> EmptyString.
Proof.
  intros Hc. simpl. destruct (rstrip s); [rewrite Hc|]; discriminate.
Qed.

(** Stripping a blank string leaves the empty string. *)
Lemma strip_blank (s : string) : blank s = true -> strip s = EmptyString.
Proof. intros Hb. unfold strip. rewrite lstrip_blank by exact Hb. reflexivity. Qed.

(** [bool(s.strip())] is false exactly for the blank strings. *)
Lemma truthy_strip (s : string) : truthy (strip s) = negb (blank s).
Proof.
  unfold strip. pose proof (lstrip_head s) as Hh.
  destruct (lstrip s) as [|c r] eqn:Hl.
  - rewrite Hh. reflexivity.
  - destruct Hh as [Hc Hb]. rewrite Hb.
    pose proof (rstrip_visible_head c r Hc) as Hne.
    destruct (rstrip (String c r)); [contradiction|reflexivity].
Qed.

End PyStrFacts.

(** ** The Conversation Store *)

Section StoreFacts.
Context `{MemoryLibrary}.

(** A name outside the list falls through every branch of the switch. *)
Lemma _initialize_memory_unsupported (w : Z) (name : string) :
  ~ In name strategies ->
  _initialize_memory w name =
    raise (Exn ValueError ("Unsupported memory type: " ++ name)).
Proof.
  intros Hout. unfold _initialize_memory.
  repeat match goal with
         | |- context [String.eqb name ?lit] =>
             destruct (String.eqb_spec name lit) as [->|_];
             [exfalso; apply Hout; unfold strategies; simpl; tauto|]
         end.
  reflexivity.
Qed.

(** C1. The constructor given a name that, once lowered, is none of
    'buffer', 'window', 'summary', 'summary_buffer', 'token_buffer' and
    'kg' raises [ValueError] ("Unsupported memory type: ..."), so that it
    returns no instance. *)
Theorem unsupported_strategy_fails (memory_type : string) (w t : Z) :
  ~ In (PyStr.lower memory_type) strategies ->
  __init__ memory_type w t =
    raise (Exn ValueError
             ("Unsupported memory type: " ++ PyStr.lower memory_type))
  /\ (forall mm, __init__ memory_type w t <> ok mm).
Proof.
  intros Hout.
  assert (Hraise : __init__ memory_type w t =
                   raise (Exn ValueError
                            ("Unsupported memory type: " ++ PyStr.lower memory_type))).
  { unfold __init__. rewrite _initialize_memory_unsupported by exact Hout.
    reflexivity. }
  split; [exact Hraise|].
  intros mm Heq. rewrite Hraise in Heq. discriminate.
Qed.

(** The methods of a store look at its memory object only. *)
Lemma observe_memory (calls : list store_call) (m1 m2 : MemoryManager) :
  memory m1 = memory m2 -> observe m1 calls = observe m2 calls.
Proof.
  revert m1 m2.
  induction calls as [|c calls IH]; intros m1 m2 Hm; simpl.
  - reflexivity.
  - destruct c as [u a| |].
    + unfold save_conversation. rewrite Hm.
      destruct (save_context (memory m2) u a) as [e|m']; simpl.
      * reflexivity.
      * apply IH. reflexivity.
    + unfold get_chat_history. rewrite Hm.
      rewrite (IH m1 m2 Hm). reflexivity.
    + apply IH. unfold clear_memory. simpl. rewrite Hm. reflexivity.
Qed.

(** C2. The constructor succeeds for 'summary' and builds the very memory
    object it builds for 'buffer': a plain [ConversationBufferMemory].
    Whatever is then recorded, asked or cleared, the two stores answer
    alike. *)
Theorem summary_is_buffer (w t : Z) :
  exists ms mb,
    __init__ "summary" w t = ok ms /\
    __init__ "buffer" w t = ok mb /\
    memory ms = ConversationBufferMemory "chat_history" true [] /\
    memory ms = memory mb /\
    forall calls, observe ms calls = observe mb calls.
Proof.
  eexists. eexists.
  split; [reflexivity|].
  split; [reflexivity|].
  split; [reflexivity|].
  split; [reflexivity|].
  intros calls. apply observe_memory. reflexivity.
Qed.

(** C10. The constructor lowers the name before it dispatches on it: a
    name and its lowered form give the same outcome, the same exception
    or the same instance. *)
Theorem init_case_insensitive (memory_type : string) (w t : Z) :
  __init__ memory_type w t = __init__ (PyStr.lower memory_type) w t.
Proof.
  unfold __init__. rewrite PyStrFacts.lower_idem. reflexivity.
Qed.

End StoreFacts.

(** ** Reachable stores *)

Section Reachable.
Context `{MemoryLibrary}.

Lemma _initialize_memory_well_formed (w : Z) (name : string) (m : Memory) :
  _initialize_memory w name = inr m -> well_formed name w m.
Proof.
  unfold _initialize_memory.
  destruct (String.eqb_spec name "buffer") as [->|Hb].
  { intros [= <-]. simpl. auto. }
  destruct (String.eqb_spec name "window") as [->|Hw].
  { intros [= <-]. simpl. auto. }
  destruct (String.eqb_spec name "summary") as [->|Hs].
  { intros [= <-]. simpl. auto. }
  repeat match goal with
         | |- context [String.eqb name ?lit] =>
             destruct (String.eqb_spec name lit) as [_|_]
         end;
    try discriminate;
    match goal with
    | |- context [llm_new ?c ?key ?rm] =>
        destruct (llm_new c key rm) as [e|o] eqn:Hnew; simpl;
        [discriminate|intros [= <-]; simpl; eauto 6 using built_new]
    end.
Qed.

Lemma save_context_well_formed (name : string) (w : Z) (m m' : Memory)
    (input output : string) :
  well_formed name w m ->
  save_context m input output = inr m' ->
  well_formed name w m'.
Proof.
  destruct m as [key rm ms|k key rm ms|c o]; simpl.
  - intros Hwf [= <-]. exact Hwf.
  - intros Hwf [= <-]. exact Hwf.
  - intros (Hb & Hn) Hs.
    destruct (llm_save_context c o input output) as [e|o'] eqn:Ho;
      simpl in Hs; [discriminate|].
    injection Hs as <-. simpl. eauto using built_save.
Qed.

Lemma clear_well_formed (name : string) (w : Z) (m : Memory) :
  well_formed name w m -> well_formed name w (clear m).
Proof.
  destruct m as [key rm ms|k key rm ms|c o]; simpl; auto.
  intros (Hb & Hn). eauto using built_clear.
Qed.

(** Every reachable store holds a memory object of the shape its name
    asks for. *)
Lemma reachable_well_formed (memory_type : string) (w t : Z) (mm : MemoryManager) :
  reachable memory_type w t mm ->
  well_formed (PyStr.lower memory_type) w (memory mm).
Proof.
  induction 1 as [mm Hinit|mm u a mm' _ IH Hsave|mm _ IH].
  - unfold __init__ in Hinit.
    destruct (_initialize_memory w (PyStr.lower memory_type)) as [e|m] eqn:Hm;
      simpl in Hinit; [discriminate|].
    injection Hinit as <-. simpl.
    apply _initialize_memory_well_formed. exact Hm.
  - unfold save_conversation in Hsave.
    destruct (save_context (memory mm) u a) as [e|m'] eqn:Hm;
      simpl in Hsave; [discriminate|].
    injection Hsave as <-. simpl.
    eapply save_context_well_formed; eauto.
  - simpl. apply clear_well_formed. exact IH.
Qed.

(** A cleared store shows the empty sequence: outright for the two buffer
    classes, by the contract of [clear] for the LLM-backed ones. *)
Lemma cleared_store_shows_nothing (memory_type : string) (w t : Z)
    (mm : MemoryManager) :
  In (PyStr.lower memory_type) ["buffer"; "window"; "summary"]
    \/ discards_on_clear ->
  reachable memory_type w t mm ->
  get_chat_history (clear_memory mm) = ok (Messages []).
Proof.
  intros Hcase Hreach.
  pose proof (reachable_well_formed _ _ _ _ Hreach) as Hwf.
  unfold get_chat_history, clear_memory. simpl.
  destruct (memory mm) as [key rm ms|k key rm ms|c o]; simpl in *.
  - destruct Hwf as (-> & -> & _). simpl.
    rewrite lookup_singleton_eq. reflexivity.
  - destruct Hwf as (_ & -> & -> & _).
    destruct (0 <? k)%Z; simpl; rewrite lookup_singleton_eq; reflexivity.
  - destruct Hwf as (Hb & Hnb & Hnw & Hns).
    destruct Hcase as [Hplain|Hcontract].
    { exfalso. simpl in Hplain. intuition congruence. }
    destruct (Hcontract c _ o Hb) as (d & -> & Hd). simpl.
    rewrite Hd. reflexivity.
Qed.

(** C7. Whatever name a store was built for and whatever state it has
    reached, clearing it and then asking for the history gives the empty
    sequence.  For 'buffer', 'window' and 'summary' this holds outright;
    for the three classes whose history is reduced by the external memory
    library it holds by the contract of that library's [clear]. *)
Theorem reset_then_history_empty (memory_type : string) (w t : Z)
    (mm : MemoryManager) :
  In (PyStr.lower memory_type) ["buffer"; "window"; "summary"]
    \/ discards_on_clear ->
  reachable memory_type w t mm ->
  get_chat_history (clear_memory mm) = ok (Messages []).
Proof. exact (cleared_store_shows_nothing memory_type w t mm). Qed.

End Reachable.

(** ** Windows *)

Section Windows.
Context {A : Type}.

(** A window at least as long as what was just appended still ends with
    it. *)
Lemma last_n_app_suffix (n : nat) (l1 l2 : list A) :
  length l2 <= n ->
  last_n n (l1 ++ l2) = last_n (n - length l2) l1 ++ l2.
Proof.
  intros Hn. unfold last_n. rewrite length_app.
  rewrite drop_app_le by lia.
  f_equal. f_equal. lia.
Qed.

(** A window that fits in what was appended sees nothing older. *)
Lemma last_n_app_inside (n : nat) (l1 l2 : list A) :
  n <= length l2 ->
  last_n n (l1 ++ l2) = last_n n l2.
Proof.
  intros Hn. unfold last_n. rewrite length_app.
  rewrite drop_app_ge by lia.
  f_equal. lia.
Qed.

Lemma last_n_length (n : nat) (l : list A) :
  n <= length l -> length (last_n n l) = n.
Proof. intros Hn. unfold last_n. rewrite length_drop. lia. Qed.

End Windows.

Lemma exchanges_length (xs : list exchange) :
  length (flat_map exchange_messages xs) = 2 * length xs.
Proof.
  induction xs as [|x xs IH]; simpl; [reflexivity|]. rewrite IH. lia.
Qed.

(** Dropping whole exchanges drops their messages two by two. *)
Lemma drop_exchanges (j : nat) (xs : list exchange) :
  drop (2 * j) (flat_map exchange_messages xs)
  = flat_map exchange_messages (drop j xs).
Proof.
  revert xs. induction j as [|j IH]; intros xs.
  - reflexivity.
  - destruct xs as [|x xs].
    + reflexivity.
    + replace (2 * S j) with (S (S (2 * j))) by lia. simpl. apply IH.
Qed.

(** The last [2 * n] messages of a run of exchanges are the messages of its
    last [n] exchanges. *)
Lemma last_n_exchanges (n : nat) (xs : list exchange) :
  last_n (2 * n) (flat_map exchange_messages xs)
  = flat_map exchange_messages (last_n n xs).
Proof.
  unfold last_n. rewrite exchanges_length.
  replace (2 * length xs - 2 * n) with (2 * (length xs - n)) by lia.
  apply drop_exchanges.
Qed.

Section Recording.
Context `{MemoryLibrary}.

(** C6. In a store built as a full buffer ('buffer', or 'summary', which is
    one), or as a window of at least one exchange, recording an exchange
    succeeds and the history asked for right after ends with it: the user's
    message, then the assistant's. *)
Theorem record_then_history_last (memory_type : string) (w t : Z)
    (mm : MemoryManager) (user_input assistant_output : string) :
  In (PyStr.lower memory_type) ["buffer"; "summary"]
    \/ (PyStr.lower memory_type = "window" /\ (0 < w)%Z) ->
  reachable memory_type w t mm ->
  exists mm' earlier,
    save_conversation mm user_input assistant_output = ok mm' /\
    get_chat_history mm' =
      ok (Messages (earlier ++ [HumanMessage user_input;
                                AIMessage assistant_output])).
Proof.
  intros Hname Hreach.
  pose proof (reachable_well_formed _ _ _ _ Hreach) as Hwf.
  unfold save_conversation, get_chat_history.
  destruct (memory mm) as [key rm ms|k key rm ms|c o]; simpl in *.
  - destruct Hwf as (-> & -> & _).
    eexists. exists ms. split; [reflexivity|]. simpl.
    rewrite lookup_singleton_eq. reflexivity.
  - destruct Hwf as (-> & -> & -> & Hwin).
    destruct Hname as [Hbuf|[_ Hpos]].
    { rewrite Hwin in Hbuf. simpl in Hbuf. intuition discriminate. }
    eexists. exists (last_n (Z.to_nat (w * 2) - 2) ms).
    split; [reflexivity|]. simpl.
    rewrite lookup_singleton_eq. simpl.
    apply Z.ltb_lt in Hpos as Hpos'. rewrite Hpos'.
    rewrite last_n_app_suffix by (simpl; lia).
    reflexivity.
  - exfalso. destruct Hwf as (_ & Hnb & Hnw & Hns).
    destruct Hname as [Hbuf|[Hwin _]]; [|contradiction].
    simpl in Hbuf. intuition congruence.
Qed.

(** Recording into a window appends the messages of the exchanges. *)
Lemma record_all_window (xs : list exchange) (mm : MemoryManager)
    (k : Z) (key : string) (rm : bool) (ms : list BaseMessage) :
  memory mm = ConversationBufferWindowMemory k key rm ms ->
  record_all mm xs =
    ok (with_memory mm
          (ConversationBufferWindowMemory k key rm
             (ms ++ flat_map exchange_messages xs))).
Proof.
  revert mm ms.
  induction xs as [|x xs IH]; intros mm ms Hm; simpl.
  - rewrite app_nil_r, <- Hm. destruct mm; reflexivity.
  - unfold save_conversation. rewrite Hm. simpl.
    rewrite (IH _ (ms ++ [HumanMessage (fst x); AIMessage (snd x)]))
      by reflexivity.
    rewrite <- app_assoc. reflexivity.
Qed.

(** C8, as the code has it.  In a store built as a window of [w] exchanges,
    once more than [w] exchanges have been recorded the history is made of
    the [w] most recent of them, oldest first, and of nothing else.  Each
    exchange is there as two messages, the user's and the assistant's, so
    that the sequence returned has [2 * w] elements. *)
Theorem window_keeps_most_recent (memory_type : string) (w t : Z)
    (mm : MemoryManager) (xs : list exchange) :
  PyStr.lower memory_type = "window" ->
  (0 <= w)%Z ->
  reachable memory_type w t mm ->
  (w < Z.of_nat (length xs))%Z ->
  exists mm' kept,
    record_all mm xs = ok mm' /\
    get_chat_history mm' = ok (Messages (flat_map exchange_messages kept)) /\
    kept = last_n (Z.to_nat w) xs /\
    length kept = Z.to_nat w /\
    length (flat_map exchange_messages kept) = 2 * Z.to_nat w.
Proof.
  intros Hname Hw Hreach Hlen.
  pose proof (reachable_well_formed _ _ _ _ Hreach) as Hwf.
  rewrite Hname in Hwf.
  destruct (memory mm) as [key rm ms|k key rm ms|c o] eqn:Hm; simpl in Hwf.
  - destruct Hwf as (_ & _ & [Hn|Hn]); discriminate.
  - destruct Hwf as (-> & -> & -> & _).
    eexists. exists (last_n (Z.to_nat w) xs).
    split; [apply (record_all_window xs mm _ _ _ _ Hm)|].
    assert (Hfit : Z.to_nat w <= length xs) by lia.
    repeat split.
    + unfold get_chat_history. simpl. rewrite lookup_singleton_eq. simpl.
      destruct (0 <? w)%Z eqn:Hpos.
      * replace (Z.to_nat (w * 2)) with (2 * Z.to_nat w) by lia.
        rewrite last_n_app_inside by (rewrite exchanges_length; lia).
        rewrite last_n_exchanges. reflexivity.
      * apply Z.ltb_ge in Hpos.
        replace (Z.to_nat w) with 0 by lia.
        unfold last_n. rewrite Nat.sub_0_r, drop_all. reflexivity.
    + apply last_n_length. exact Hfit.
    + rewrite exchanges_length, last_n_length by exact Hfit. reflexivity.
  - destruct Hwf as (_ & _ & Hnw & _). contradiction.
Qed.

End Recording.

(** ** Calls to the collaborators *)

Lemma io_bind_raise {A B : Type} (m : io A) (f : A -> io B) (e : exn) :
  outcome_of m = raise e -> io_bind m f = (trace m, raise e).
Proof. destruct m as [t [e'|a]]; simpl; intros [= ->]; reflexivity. Qed.

Section RagFacts.
Variable world : Collaborators.

(** [retrieve], step by step: the embedding is asked for; if it comes,
    one search request is sent; if a reply comes, [hits.hits] is taken
    from it. *)
Lemma retrieve_unfold (self : RetrievalModel) (query : string) (top_k : Z) :
  retrieve world self query top_k =
    match encode world query with
    | inl e => ([EvEncode query], inl e)
    | inr query_emb =>
        let request :=
          EvGet (search_url self) (search_query query_emb top_k)
                ("admin", "admin") in
        ([EvEncode query; request],
         try! res := requests_get world (search_url self)
                       (search_query query_emb top_k) ("admin", "admin") in
         hits_of res)
    end.
Proof.
  unfold retrieve, embed_text, call, hits_of. simpl.
  destruct (encode world query) as [e|emb]; [reflexivity|].
  destruct (requests_get world _ _ _) as [e|res]; [reflexivity|]. simpl.
  destruct (response_json res) as [e|parsed]; [reflexivity|]. simpl.
  destruct (Py.getitem parsed "hits") as [e|outer]; [reflexivity|]. simpl.
  destruct (Py.getitem outer "hits") as [e|hits]; reflexivity.
Qed.

(** [retrieve] never calls the Generator. *)
Lemma retrieve_no_generator (self : RetrievalModel) (query : string) (top_k : Z) :
  filter is_generator_call (trace (retrieve world self query top_k)) = [].
Proof.
  rewrite retrieve_unfold.
  destruct (encode world query); reflexivity.
Qed.

(** C9. Once the query is embedded, [retrieve] sends exactly one search
    request; its body is [{size: top_k, query: {knn: {embedding: {vector:
    <the embedding>, k: top_k}}}}]; what it returns is [hits.hits] of the
    parsed reply. *)
Theorem retrieve_one_search (self : RetrievalModel) (query : string)
    (top_k : Z) (query_emb : list Q) :
  encode world query = ok query_emb ->
  let body :=
    JDict [("size", JInt top_k);
           ("query",
            JDict [("knn",
                    JDict [("embedding",
                            JDict [("vector", JList (map JFloat query_emb));
                                   ("k", JInt top_k)])])])] in
  let url := (opensearch_url self ++ "/" ++ index_name self ++ "/_search")%string in
  filter is_embedding (trace (retrieve world self query top_k))
    = [EvEncode query] /\
  filter is_search (trace (retrieve world self query top_k))
    = [EvGet url body ("admin", "admin")] /\
  outcome_of (retrieve world self query top_k)
    = (try! res := requests_get world url body ("admin", "admin") in
       try! parsed := response_json res in
       try! outer := Py.getitem parsed "hits" in
       Py.getitem outer "hits").
Proof.
  intros Henc. rewrite retrieve_unfold, Henc. simpl.
  repeat split.
Qed.

(** C5, as the code has it.  Whatever [retrieve] returns is [hits.hits] of
    the reply of the search service to its one request, untouched:
    [retrieve] neither truncates nor sorts, and its result is a sequence
    of at most [top_k] documents by descending score exactly when the
    reply holds one. *)
Theorem retrieve_passes_hits_through (self : RetrievalModel) (query : string)
    (top_k : Z) (hits : json) :
  outcome_of (retrieve world self query top_k) = ok hits ->
  exists query_emb res parsed outer,
    encode world query = ok query_emb /\
    requests_get world (search_url self) (search_query query_emb top_k)
      ("admin", "admin") = ok res /\
    response_json res = ok parsed /\
    Py.getitem parsed "hits" = ok outer /\
    Py.getitem outer "hits" = ok hits.
Proof.
  rewrite retrieve_unfold.
  destruct (encode world query) as [e|emb]; [discriminate|]. simpl.
  destruct (requests_get world _ _ _) as [e|res] eqn:Hres; [discriminate|].
  unfold hits_of. simpl.
  destruct (response_json res) as [e|parsed] eqn:Hp; [discriminate|]. simpl.
  destruct (Py.getitem parsed "hits") as [e|outer] eqn:Ho; [discriminate|]. simpl.
  intros Hh. exists emb, res, parsed, outer. auto.
Qed.

(** C3. A query that is empty or all white space starts nothing: the main
    flow calls neither the Retriever nor the Generator, leaves the
    messages of the session as they are, and ends without an exception,
    whether or not Send was clicked; so does the whole script. *)
Theorem blank_query_no_op (send_clicked : bool) (query : string)
    (messages : list chat_message) :
  PyStr.blank query = true ->
  filter is_retriever_call (fst (main_flow world send_clicked query messages)) = [] /\
  filter is_generator_call (fst (main_flow world send_clicked query messages)) = [] /\
  snd (main_flow world send_clicked query messages) = Continue messages /\
  script world false send_clicked query (Some messages) = ([], Continue messages).
Proof.
  intros Hblank.
  assert (Hflow : main_flow world send_clicked query messages
                  = ([], Continue messages)).
  { unfold main_flow. rewrite PyStrFacts.truthy_strip, Hblank.
    rewrite andb_false_r. reflexivity. }
  unfold script. simpl. rewrite Hflow. repeat split.
Qed.

(** A failure anywhere in the [try] block is caught and written down as
    the assistant's turn. *)
Lemma main_flow_failure (query : string) (messages : list chat_message)
    (e : exn) :
  PyStr.blank query = false ->
  outcome_of (answer_flow world (PyStr.strip query)) = raise e ->
  is_Exception e = true ->
  main_flow world true query messages =
    (trace (answer_flow world (PyStr.strip query)),
     Rerun ((messages ++ [user_message (PyStr.strip query)])
            ++ [assistant_message (JStr (error_text e))])).
Proof.
  intros Hblank Hfail Hexc. unfold main_flow.
  rewrite PyStrFacts.truthy_strip, Hblank. simpl.
  destruct (answer_flow world (PyStr.strip query)) as [t [e'|answer]];
    simpl in Hfail; [|discriminate].
  injection Hfail as ->. rewrite Hexc. reflexivity.
Qed.

(** C4. For a query that is not blank, an error raised by the Retriever is
    caught: the Generator is not called, the turn is recorded, the user's
    message followed by an assistant message that reads "Error: " and the
    text of the error, and the flow ends by its rerun, no exception leaving
    it.  The same record is made for an error raised anywhere in steps 2 to
    5.  An error is an instance of [Exception]. *)
Theorem failed_turn_recorded (query : string) (messages : list chat_message)
    (e : exn) :
  PyStr.blank query = false ->
  is_Exception e = true ->
  let recorded :=
    Rerun (messages ++
           [user_message (PyStr.strip query);
            {| role := "assistant";
               content := JStr ("Error: " ++ exn_str e) |}]) in
  (outcome_of (retrieve world retriever (PyStr.strip query) 3) = raise e ->
   filter is_generator_call (fst (main_flow world true query messages)) = [] /\
   snd (main_flow world true query messages) = recorded /\
   escaped (snd (main_flow world true query messages)) = false)
  /\
  (outcome_of (answer_flow world (PyStr.strip query)) = raise e ->
   snd (main_flow world true query messages) = recorded /\
   escaped (snd (main_flow world true query messages)) = false).
Proof.
  intros Hblank Hexc recorded.
  assert (Hany : outcome_of (answer_flow world (PyStr.strip query)) = raise e ->
                 snd (main_flow world true query messages) = recorded /\
                 escaped (snd (main_flow world true query messages)) = false).
  { intros Hfail.
    rewrite (main_flow_failure query messages e Hblank Hfail Hexc). simpl.
    subst recorded. rewrite <- app_assoc. split; reflexivity. }
  split; [|exact Hany].
  intros Hretr.
  assert (Hflow : answer_flow world (PyStr.strip query)
                  = (trace (retrieve world retriever (PyStr.strip query) 3),
                     raise e)).
  { unfold answer_flow. apply io_bind_raise. exact Hretr. }
  assert (Hfail : outcome_of (answer_flow world (PyStr.strip query)) = raise e).
  { rewrite Hflow. reflexivity. }
  split; [|exact (Hany Hfail)].
  rewrite (main_flow_failure query messages e Hblank Hfail Hexc). simpl.
  rewrite Hflow. simpl. apply retrieve_no_generator.
Qed.

End RagFacts.

(** ** The statements at work *)

(** The stand-in for the LLM-backed classes honours the contract of
    [clear]. *)
Lemma plain_llm_memory_discards : @discards_on_clear plain_llm_memory.
Proof.
  intros c key o Hbuilt.
  assert (Hkey : fst o = key).
  { induction Hbuilt as [rm o Hnew|o u a o' _ IH Hsave|o _ IH].
    - injection Hnew as <-. reflexivity.
    - injection Hsave as <-. exact IH.
    - exact IH. }
  exists {[ key := Messages [] ]}. simpl. rewrite Hkey.
  split; [reflexivity|apply lookup_singleton_eq].
Qed.

Lemma unsupported_strategy_fails_witness :
  ~ In (PyStr.lower "invalid") strategies /\
  @__init__ plain_llm_memory "invalid" 3 1000 =
    raise (Exn ValueError "Unsupported memory type: invalid").
Proof.
  assert (Hout : ~ In (PyStr.lower "invalid") strategies).
  { vm_compute. intuition discriminate. }
  split; [exact Hout|].
  exact (proj1 (@unsupported_strategy_fails plain_llm_memory "invalid" 3 1000 Hout)).
Defined.

Lemma memory_test_store_reachable :
  @reachable plain_llm_memory "window" 3 1000 memory_test_store.
Proof.
  eapply reach_save with (user_input := "What is AI?"%string)
                         (bot_output := "AI means Artificial Intelligence."%string).
  - eapply reach_save with (user_input := "Hello"%string)
                           (bot_output := "Hi there!"%string).
    + apply reach_init. reflexivity.
    + reflexivity.
  - reflexivity.
Qed.

Lemma reset_then_history_empty_witness :
  @get_chat_history plain_llm_memory (clear_memory memory_test_store)
  = ok (Messages []).
Proof.
  apply (@reset_then_history_empty plain_llm_memory "window" 3 1000).
  - left. simpl. auto.
  - exact memory_test_store_reachable.
Defined.

Lemma record_then_history_last_witness :
  exists mm' earlier,
    @save_conversation plain_llm_memory memory_test_store "Why?" "Because." = ok mm' /\
    get_chat_history mm' =
      ok (Messages (earlier ++ [HumanMessage "Why?"; AIMessage "Because."])).
Proof.
  apply (@record_then_history_last plain_llm_memory "window" 3 1000).
  - right. split; [reflexivity|lia].
  - exact memory_test_store_reachable.
Defined.

Lemma window_keeps_most_recent_witness :
  exists mm' kept,
    @record_all plain_llm_memory memory_test_store
      [("a", "1"); ("b", "2"); ("c", "3"); ("d", "4")] = ok mm' /\
    get_chat_history mm' = ok (Messages (flat_map exchange_messages kept)) /\
    kept = last_n (Z.to_nat 3) [("a", "1"); ("b", "2"); ("c", "3"); ("d", "4")] /\
    length kept = Z.to_nat 3 /\
    length (flat_map exchange_messages kept) = 2 * Z.to_nat 3.
Proof.
  apply (@window_keeps_most_recent plain_llm_memory "window" 3 1000).
  - reflexivity.
  - lia.
  - exact memory_test_store_reachable.
  - simpl. lia.
Defined.

Lemma blank_query_no_op_witness :
  PyStr.blank (String "009"%char (String " "%char (String "010"%char "")))
    = true /\
  snd (main_flow answering_world true
         (String "009"%char (String " "%char (String "010"%char "")))
         [user_message "Hello"])
    = Continue [user_message "Hello"].
Proof.
  split; [reflexivity|].
  apply (blank_query_no_op answering_world true
           (String "009"%char (String " "%char (String "010"%char "")))
           [user_message "Hello"]).
  reflexivity.
Defined.

Lemma failed_turn_recorded_witness :
  outcome_of (retrieve unreachable_search_world retriever "What is AI?" 3)
    = raise (Exn (OtherException "ConnectionError") "Connection refused") /\
  snd (main_flow unreachable_search_world true " What is AI? " [])
    = Rerun [user_message "What is AI?";
             {| role := "assistant";
                content := JStr "Error: Connection refused" |}] /\
  filter is_generator_call
    (fst (main_flow unreachable_search_world true " What is AI? " [])) = [].
Proof.
  pose proof (failed_turn_recorded unreachable_search_world " What is AI? " []
                (Exn (OtherException "ConnectionError") "Connection refused")
                eq_refl eq_refl) as [Hretr _].
  destruct (Hretr eq_refl) as (Hgen & Hrec & _).
  split; [reflexivity|].
  split; [exact Hrec|exact Hgen].
Defined.

Lemma retrieve_one_search_witness :
  filter is_search (trace (retrieve answering_world retriever "What is AI?" 3))
  = [EvGet "http://localhost:9200/rag-index/_search"
       (JDict [("size", JInt 3);
               ("query",
                JDict [("knn",
                        JDict [("embedding",
                                JDict [("vector",
                                        JList [JFloat (1 # 2); JFloat (-1 # 4)]);
                                       ("k", JInt 3)])])])])
       ("admin", "admin")].
Proof.
  exact (proj1 (proj2 (retrieve_one_search answering_world retriever
                         "What is AI?" 3 [1 # 2; -1 # 4]%Q eq_refl))).
Defined.

Lemma retrieve_passes_hits_through_witness :
  exists query_emb res parsed outer,
    encode answering_world "What is AI?" = ok query_emb /\
    requests_get answering_world (search_url retriever)
      (search_query query_emb 3) ("admin", "admin") = ok res /\
    response_json res = ok parsed /\
    Py.getitem parsed "hits" = ok outer /\
    Py.getitem outer "hits" = ok (JList [hit "d1" (9 # 10) "AI is..."]).
Proof.
  apply (retrieve_passes_hits_through answering_world retriever "What is AI?" 3).
  reflexivity.
Defined.

(** C8, as stated, fails on the length: a window of one exchange that has
    recorded two shows the last one, which is two messages. *)
Lemma window_history_longer_than_window :
  exists mm0 mm,
    @__init__ plain_llm_memory "window" 1 1000 = ok mm0 /\
    record_all mm0 [("a", "1"); ("b", "2")] = ok mm /\
    (1 < Z.of_nat (length [("a", "1"); ("b", "2")]))%Z /\
    get_chat_history mm = ok (Messages [HumanMessage "b"; AIMessage "2"]) /\
    ~ (Z.of_nat (length [HumanMessage "b"; AIMessage "2"]) <= 1)%Z.
Proof.
  eexists. eexists.
  split; [reflexivity|].
  split; [reflexivity|].
  split; [simpl; lia|].
  split; [reflexivity|].
  simpl. lia.
Qed.

(** C5, as stated, fails: asked for one document, [retrieve] hands back the
    two hits of the reply, the weaker one first. *)
Lemma retrieve_not_bounded_nor_sorted :
  PyStr.blank "What is AI?" = false /\
  (0 < 1)%Z /\
  outcome_of (retrieve two_hits_world retriever "What is AI?" 1)
    = ok (JList [hit "d1" (1 # 10) "one"; hit "d2" (9 # 10) "two"]) /\
  ~ (Z.of_nat (length [hit "d1" (1 # 10) "one"; hit "d2" (9 # 10) "two"]) <= 1)%Z /\
  mapM score_of [hit "d1" (1 # 10) "one"; hit "d2" (9 # 10) "two"]
    = Some [(1 # 10)%Q; (9 # 10)%Q] /\
  descending [(1 # 10)%Q; (9 # 10)%Q] = false /\
  ~ retrieval_result 1 (JList [hit "d1" (1 # 10) "one"; hit "d2" (9 # 10) "two"]).
Proof.
  repeat split; try reflexivity.
  - simpl. lia.
  - intros (docs & scores & Heq & Hlen & _).
    injection Heq as <-. simpl in Hlen. lia.
Qed.

(** A store of an LLM-backed class: cleared, it shows nothing, by the
    contract of the library. *)
Example reset_kg_store :
  exists mm0 mm,
    @__init__ plain_llm_memory "KG" 3 1000 = ok mm0 /\
    save_conversation mm0 "Hello" "Hi there!" = ok mm /\
    get_chat_history mm
      = ok (Messages [HumanMessage "Hello"; AIMessage "Hi there!"]) /\
    get_chat_history (clear_memory mm) = ok (Messages []).
Proof.
  eexists. eexists.
  split; [reflexivity|].
  split; [reflexivity|].
  split; [reflexivity|].
  apply (@cleared_store_shows_nothing plain_llm_memory "KG" 3 1000).
  - right. exact plain_llm_memory_discards.
  - eapply reach_save; [apply reach_init|]; reflexivity.
Qed.

(** The end-to-end scenario of the specification: one document comes back,
    the model answers, and the session ends with the question and the
    answer. *)
Example end_to_end :
  main_flow answering_world true "What is AI?" []
  = ([EvEncode "What is AI?";
      EvGet "http://localhost:9200/rag-index/_search"
        (search_query [1 # 2; -1 # 4]%Q 3) ("admin", "admin");
      EvInvokeModel "anthropic.claude-v2"
        (bedrock_body (build_prompt "[...]" "What is AI?")) "application/json"],
     Rerun [user_message "What is AI?";
            assistant_message (JStr "AI means...")]).
Proof. reflexivity. Qed.

(** [memory_test.py]: the history printed after the two exchanges. *)
Example memory_test_history :
  @get_chat_history plain_llm_memory memory_test_store
  = ok (Messages [HumanMessage "Hello"; AIMessage "Hi there!";
                  HumanMessage "What is AI?";
                  AIMessage "AI means Artificial Intelligence."]).
Proof. reflexivity. Qed.

(** * Further properties of the code *)

(** ** Strings *)

Module PyStrMore.
Import PyStr.

Lemma rstrip_idem (s : string) : rstrip (rstrip s) = rstrip s.
Proof.
  induction s as [|c s IH]; simpl; [reflexivity|].
  destruct (rstrip s) as [|c' r] eqn:Hr.
  - destruct (isspace c) eqn:Hc; simpl; [reflexivity|].
    rewrite Hc. reflexivity.
  - change (rstrip (String c (String c' r)))
      with (match rstrip (String c' r) with
            | EmptyString => if isspace c then EmptyString else String c EmptyString
            | r0 => String c r0
            end).
    rewrite IH. reflexivity.
Qed.

(** [rstrip] keeps a visible first character. *)
Lemma rstrip_head (c : ascii) (s : string) :
  isspace c = false -> exists r, rstrip (String c s) = String c r.
Proof.
  intros Hc. simpl. destruct (rstrip s) as [|c' r].
  - rewrite Hc. eauto.
  - eauto.
Qed.

(** Stripping twice is stripping once. *)
Lemma strip_idem (s : string) : strip (strip s) = strip s.
Proof.
  unfold strip. pose proof (PyStrFacts.lstrip_head s) as Hh.
  destruct (lstrip s) as [|c r] eqn:Hl.
  - reflexivity.
  - destruct Hh as [Hc _].
    destruct (rstrip_head c r Hc) as [r' Hr]. rewrite Hr.
    simpl lstrip. rewrite Hc, <- Hr. apply rstrip_idem.
Qed.

End PyStrMore.

(** ** The retriever, the generator and the script *)

Section MoreRagFacts.
Variable world : Collaborators.

(** The [try] block, step by step: at most three calls, each made only when
    the one before it returned and what lies between them did not raise. *)
Lemma answer_flow_unfold (question : string) :
  answer_flow world question =
    match encode world question with
    | inl e => ([EvEncode question], inl e)
    | inr query_emb =>
        let request :=
          EvGet (search_url retriever) (search_query query_emb 3)
                ("admin", "admin") in
        match (try! res := requests_get world (search_url retriever)
                             (search_query query_emb 3) ("admin", "admin") in
               try! hits := hits_of res in
               context_json world hits) with
        | inl e => ([EvEncode question; request], inl e)
        | inr context =>
            let prompt := build_prompt context question in
            ([EvEncode question; request;
              EvInvokeModel "anthropic.claude-v2" (bedrock_body prompt)
                "application/json"],
             try! reply := invoke_model world "anthropic.claude-v2"
                             (bedrock_body prompt) "application/json" in
             Py.getitem reply "completion")
        end
    end.
Proof.
  unfold answer_flow. rewrite retrieve_unfold.
  destruct (encode world question) as [e|emb]; [reflexivity|].
  destruct (requests_get world _ _ _) as [e|res];
    cbn -[build_prompt hits_of context_json search_query search_url bedrock_body];
    [reflexivity|].
  destruct (hits_of res) as [e|hits];
    cbn -[build_prompt hits_of context_json search_query search_url bedrock_body];
    [reflexivity|].
  destruct (context_json world hits) as [e|context];
    cbn -[build_prompt hits_of context_json search_query search_url bedrock_body];
    [reflexivity|].
  destruct (invoke_model world _ _ _) as [e|reply]; reflexivity.
Qed.

End MoreRagFacts.

Lemma io_bind_ok {A B : Type} (m : io A) (f : A -> io B) (a : A) :
  outcome_of m = ok a ->
  io_bind m f = (trace m ++ trace (f a), outcome_of (f a)).
Proof.
  destruct m as [t [e|a']]; simpl; intros [= ->].
  destruct (f a) as [t' r]. reflexivity.
Qed.

(** A list comprehension succeeds exactly when every element does, and
    then keeps the order. *)
Lemma comprehension_ok {A B : Type} (f : A -> result B) (l : list A) (bs : list B) :
  Py.comprehension f l = ok bs <-> Forall2 (fun a b => f a = ok b) l bs.
Proof.
  revert bs. induction l as [|a l IH]; intros bs; simpl.
  - split.
    + intros [= <-]. constructor.
    + intros Hall. inversion Hall. reflexivity.
  - split.
    + destruct (f a) as [e|b] eqn:Hfa; simpl; [discriminate|].
      destruct (Py.comprehension f l) as [e|bs'] eqn:Hl; simpl; [discriminate|].
      intros [= <-]. constructor; [exact Hfa|]. apply IH. reflexivity.
    + intros Hall. inversion Hall as [|a' b l' bs' Hfa Hrest]; subst.
      rewrite Hfa. simpl.
      apply IH in Hrest. rewrite Hrest. reflexivity.
Qed.

(** A list comprehension ends with the exception of the first element that
    raises. *)
Lemma comprehension_raise {A B : Type} (f : A -> result B)
    (good : list A) (bad : A) (rest : list A) (e : exn) :
  Forall (fun a => exists b, f a = ok b) good ->
  f bad = raise e ->
  Py.comprehension f (good ++ bad :: rest) = raise e.
Proof.
  intros Hgood Hbad. induction Hgood as [|a good [b Hfa] _ IH]; simpl.
  - rewrite Hbad. reflexivity.
  - rewrite Hfa. simpl. rewrite IH. reflexivity.
Qed.

Section ScriptFacts.
Variable world : Collaborators.

(** The flow that ran left at least its embedding call behind. *)
Lemma answer_flow_trace (question : string) :
  exists rest, trace (answer_flow world question) = EvEncode question :: rest.
Proof.
  rewrite answer_flow_unfold.
  destruct (encode world question) as [e|emb]; [eexists; reflexivity|].
  cbv zeta.
  match goal with
  | |- context [match ?r with inl _ => _ | inr _ => _ end] => destruct r
  end; eexists; reflexivity.
Qed.

Lemma main_flow_runs (query : string) (messages : list chat_message) :
  PyStr.blank query = false ->
  main_flow world true query messages =
    let messages' := messages ++ [user_message (PyStr.strip query)] in
    match answer_flow world (PyStr.strip query) with
    | (t, inr answer) => (t, Rerun (messages' ++ [assistant_message answer]))
    | (t, inl e) =>
        if is_Exception e
        then (t, Rerun (messages' ++ [assistant_message (JStr (error_text e))]))
        else (t, Uncaught e messages')
    end.
Proof.
  intros Hblank. unfold main_flow.
  rewrite PyStrFacts.truthy_strip, Hblank. reflexivity.
Qed.

Lemma main_flow_skips (send_clicked : bool) (query : string)
    (messages : list chat_message) :
  send_clicked && negb (PyStr.blank query) = false ->
  main_flow world send_clicked query messages = ([], Continue messages).
Proof.
  intros Hskip. unfold main_flow.
  rewrite PyStrFacts.truthy_strip, Hskip. reflexivity.
Qed.

(** X1. When the embedder raises, the turn stops there: the embedding call
    is the only call made, no search request and no model call follow, and
    the error is what the user is shown. *)
Theorem embedding_failure_stops_turn (query : string)
    (messages : list chat_message) (e : exn) :
  PyStr.blank query = false ->
  encode world (PyStr.strip query) = raise e ->
  is_Exception e = true ->
  main_flow world true query messages =
    ([EvEncode (PyStr.strip query)],
     Rerun (messages ++
            [user_message (PyStr.strip query);
             assistant_message (JStr ("Error: " ++ exn_str e))])).
Proof.
  intros Hblank Henc Hexc.
  rewrite main_flow_runs by exact Hblank.
  rewrite answer_flow_unfold, Henc. cbv zeta. unfold raise.
  rewrite Hexc, <- app_assoc. reflexivity.
Qed.

(** X2. A reply of the search service that parses to a dictionary without
    the key "hits" (the error body of a failed search, say) makes
    [retrieve] raise [KeyError('hits')]; the model is not called and the
    user is shown "Error: 'hits'". *)
Theorem reply_without_hits (query : string) (messages : list chat_message)
    (query_emb : list Q) (res : Response) (d : list (string * json)) :
  PyStr.blank query = false ->
  encode world (PyStr.strip query) = ok query_emb ->
  requests_get world (search_url retriever) (search_query query_emb 3)
    ("admin", "admin") = ok res ->
  response_json res = ok (JDict d) ->
  Py.dict_get d "hits" = None ->
  outcome_of (retrieve world retriever (PyStr.strip query) 3)
    = raise (Exn KeyError "'hits'") /\
  main_flow world true query messages =
    ([EvEncode (PyStr.strip query);
      EvGet (search_url retriever) (search_query query_emb 3) ("admin", "admin")],
     Rerun (messages ++
            [user_message (PyStr.strip query);
             assistant_message (JStr "Error: 'hits'")])).
Proof.
  intros Hblank Henc Hget Hjson Hmiss. split.
  - rewrite retrieve_unfold, Henc. unfold ok, outcome_of, snd.
    cbv beta iota zeta.
    rewrite Hget. unfold hits_of. cbn. rewrite Hjson. cbn.
    rewrite Hmiss. reflexivity.
  - rewrite main_flow_runs by exact Hblank.
    rewrite answer_flow_unfold, Henc. unfold ok. cbv beta iota zeta.
    rewrite Hget. unfold hits_of. cbn -[search_url search_query].
    rewrite Hjson. cbn -[search_url search_query].
    rewrite Hmiss. cbn -[search_url search_query].
    rewrite <- app_assoc. reflexivity.
Qed.

(** X4. [query_bedrock] makes exactly one call, to the model
    "anthropic.claude-v2" with at most 300 tokens to sample and the
    temperature 0.2 whatever the prompt; it returns the field "completion"
    of the reply, and an exception of the call is passed on. *)
Theorem query_bedrock_one_call (prompt : string) :
  let body :=
    JDict [("prompt", JStr prompt);
           ("max_tokens_to_sample", JInt 300);
           ("temperature", JFloat (2 # 10))] in
  trace (query_bedrock world prompt)
    = [EvInvokeModel "anthropic.claude-v2" body "application/json"] /\
  outcome_of (query_bedrock world prompt)
    = (try! reply := invoke_model world "anthropic.claude-v2" body
                       "application/json" in
       Py.getitem reply "completion").
Proof.
  unfold query_bedrock, call, pure, bedrock_body. simpl.
  destruct (invoke_model world _ _ _) as [e|reply]; split; reflexivity.
Qed.

(** X5. When the retrieval went well and the model replies with a
    dictionary that has no "completion", the turn is recorded as a failed
    one: the user is shown "Error: 'completion'". *)
Theorem reply_without_completion (query : string) (messages : list chat_message)
    (hits : json) (context : string) (d : list (string * json)) :
  PyStr.blank query = false ->
  outcome_of (retrieve world retriever (PyStr.strip query) 3) = ok hits ->
  context_json world hits = ok context ->
  invoke_model world "anthropic.claude-v2"
    (bedrock_body (build_prompt context (PyStr.strip query)))
    "application/json" = ok (JDict d) ->
  Py.dict_get d "completion" = None ->
  snd (main_flow world true query messages) =
    Rerun (messages ++
           [user_message (PyStr.strip query);
            assistant_message (JStr "Error: 'completion'")]).
Proof.
  intros Hblank Hretr Hctx Hreply Hmiss.
  assert (Hfail : outcome_of (answer_flow world (PyStr.strip query))
                  = raise (Exn KeyError "'completion'")).
  { unfold answer_flow.
    rewrite (io_bind_ok _ _ hits Hretr). unfold outcome_of at 1. simpl snd.
    rewrite Hctx. cbn -[build_prompt bedrock_body].
    rewrite Hreply. cbn -[build_prompt bedrock_body].
    rewrite Hmiss. reflexivity. }
  rewrite (main_flow_failure world query messages _ Hblank Hfail eq_refl).
  simpl. rewrite <- app_assoc. reflexivity.
Qed.

Lemma main_flow_trace (query : string) (messages : list chat_message) :
  PyStr.blank query = false ->
  fst (main_flow world true query messages)
  = trace (answer_flow world (PyStr.strip query)).
Proof.
  intros Hblank. rewrite main_flow_runs by exact Hblank. cbv zeta.
  destruct (answer_flow world (PyStr.strip query)) as [t [e|answer]]; simpl;
    [destruct (is_Exception e)|]; reflexivity.
Qed.

(** The main flow runs or skips. *)
Lemma main_flow_cases (send_clicked : bool) (query : string) :
  (send_clicked = true /\ PyStr.blank query = false)
  \/ send_clicked && negb (PyStr.blank query) = false.
Proof. destruct send_clicked, (PyStr.blank query); auto. Qed.


(** X7. Whatever the collaborators do, one run of the main flow calls each
    of them at most once and in the order embedder, search service, model:
    its calls are the first ones of such a sequence of three.  Nothing is
    tried again. *)
Theorem calls_once_in_order (send_clicked : bool) (query : string)
    (messages : list chat_message) :
  exists request generation rest,
    is_search request = true /\
    is_generator_call generation = true /\
    [EvEncode (PyStr.strip query); request; generation]
    = fst (main_flow world send_clicked query messages) ++ rest.
Proof.
  destruct (main_flow_cases send_clicked query) as [[-> Hblank]|Hskip].
  - rewrite main_flow_trace by exact Hblank.
    rewrite answer_flow_unfold.
    destruct (encode world (PyStr.strip query)) as [e|emb].
    + exists (EvGet "" JNull ("", "")), (EvInvokeModel "" JNull "").
      eexists. repeat split.
    + cbv zeta.
      match goal with
      | |- context [match ?r with inl _ => _ | inr _ => _ end] =>
          destruct r as [e|context]
      end.
      * eexists. exists (EvInvokeModel "" JNull ""). eexists.
        split; [|split]; [| |reflexivity]; reflexivity.
      * eexists. eexists. exists [].
        split; [|split]; [| |reflexivity]; reflexivity.
  - rewrite main_flow_skips by exact Hskip.
    exists (EvGet "" JNull ("", "")), (EvInvokeModel "" JNull "").
    eexists. repeat split.
Qed.

(** X8. [except Exception] does not catch what is no instance of
    [Exception] (an interrupt from the keyboard, say): such an exception
    leaves the script, after the user's message was added and without an
    assistant message for it. *)
Theorem non_exception_escapes (query : string) (messages : list chat_message)
    (e : exn) :
  PyStr.blank query = false ->
  outcome_of (answer_flow world (PyStr.strip query)) = raise e ->
  is_Exception e = false ->
  snd (main_flow world true query messages)
  = Uncaught e (messages ++ [user_message (PyStr.strip query)]).
Proof.
  intros Hblank Hfail Hexc.
  rewrite main_flow_runs by exact Hblank. cbv zeta.
  destruct (answer_flow world (PyStr.strip query)) as [t [e'|answer]];
    simpl in Hfail; [|discriminate].
  injection Hfail as ->. rewrite Hexc. reflexivity.
Qed.

(** X9. White space around the query changes nothing: the script works on
    the stripped text only, so a query and its stripped form give the same
    calls and the same messages. *)
Theorem surrounding_space_ignored (send_clicked : bool) (query : string)
    (messages : list chat_message) :
  main_flow world send_clicked query messages
  = main_flow world send_clicked (PyStr.strip query) messages.
Proof.
  unfold main_flow. rewrite PyStrMore.strip_idem. reflexivity.
Qed.

(** X10. The main flow never drops or rewrites a message of the session: it
    adds at most two at the end, and when it runs the first of them is the
    user's stripped query. *)
Theorem earlier_messages_kept (send_clicked : bool) (query : string)
    (messages : list chat_message) :
  exists added,
    messages_of (snd (main_flow world send_clicked query messages))
      = messages ++ added /\
    length added <= 2 /\
    (send_clicked && negb (PyStr.blank query) = false -> added = []) /\
    (send_clicked && negb (PyStr.blank query) = true ->
     exists rest, added = user_message (PyStr.strip query) :: rest).
Proof.
  destruct (main_flow_cases send_clicked query) as [[-> Hblank]|Hskip].
  - rewrite main_flow_runs by exact Hblank. cbv zeta. rewrite Hblank.
    destruct (answer_flow world (PyStr.strip query)) as [t [e|answer]];
      [destruct (is_Exception e)|]; simpl; try rewrite <- app_assoc;
      eexists; (split; [reflexivity|]); simpl;
      (split; [lia|]); (split; [discriminate|eauto]).
  - rewrite main_flow_skips by exact Hskip. rewrite Hskip.
    exists []. simpl. rewrite app_nil_r.
    repeat split; [lia|discriminate].
Qed.

(** X11. A run of the script calls a collaborator only when Clear was not
    clicked, Send was, and the text is not blank; then it does. *)
Theorem script_calls_iff (clear_clicked send_clicked : bool) (query : string)
    (session_messages : option (list chat_message)) :
  fst (script world clear_clicked send_clicked query session_messages) = []
  <-> clear_clicked = true \/ send_clicked = false \/ PyStr.blank query = true.
Proof.
  unfold script. destruct clear_clicked; simpl.
  { split; auto. }
  destruct (main_flow_cases send_clicked query) as [[-> Hblank]|Hskip].
  - rewrite main_flow_trace by exact Hblank.
    destruct (answer_flow_trace (PyStr.strip query)) as [rest ->].
    rewrite Hblank. split; [discriminate|].
    intros [H|[H|H]]; discriminate.
  - rewrite main_flow_skips by exact Hskip. simpl.
    split; [|reflexivity]. intros _.
    destruct send_clicked, (PyStr.blank query); auto; discriminate.
Qed.

(** X3. The status of the reply of the search service is never looked at:
    with another status and the same body, every run makes the same calls
    and ends with the same messages. *)
Theorem status_never_checked (code : Z) (send_clicked : bool) (query : string)
    (messages : list chat_message) :
  main_flow (with_status code world) send_clicked query messages
  = main_flow world send_clicked query messages.
Proof.
  assert (Hflow : forall q,
             answer_flow (with_status code world) q = answer_flow world q).
  { intros q. rewrite !answer_flow_unfold.
    cbn [encode requests_get invoke_model with_status].
    destruct (encode world q) as [e|emb]; [reflexivity|]. cbv zeta.
    destruct (requests_get world _ _ _) as [e|res]; [reflexivity|].
    reflexivity. }
  unfold main_flow. rewrite Hflow. reflexivity.
Qed.

(** The context is written exactly when the retrieved value can be run
    through and every document has its four keys; it is then the text of
    one entry per document, in their order. *)
Lemma context_json_ok (retrieved_docs : json) (context : string) :
  context_json world retrieved_docs = ok context <->
  exists docs entries,
    Py.iterate retrieved_docs = ok docs /\
    Forall2 (fun doc entry => context_entry doc = ok entry) docs entries /\
    context = json_dumps world (JList entries).
Proof.
  unfold context_json. split.
  - destruct (Py.iterate retrieved_docs) as [e|docs]; simpl; [discriminate|].
    destruct (Py.comprehension context_entry docs) as [e|entries] eqn:Hc;
      simpl; [discriminate|].
    intros [= <-]. exists docs, entries.
    split; [reflexivity|]. split; [|reflexivity].
    apply comprehension_ok. exact Hc.
  - intros (docs & entries & -> & Hall & ->). simpl.
    apply comprehension_ok in Hall. rewrite Hall. reflexivity.
Qed.

(** The entry written for a document that has its four keys. *)
Lemma context_entry_ok (fields : list (string * json)) (id score text : json)
    (source : json) :
  Py.dict_get fields "_id" = Some id ->
  Py.dict_get fields "_score" = Some score ->
  Py.dict_get fields "_source" = Some source ->
  Py.getitem source "content" = ok text ->
  context_entry (JDict fields)
  = ok (JDict [("id", id); ("score", score); ("content", text)]).
Proof.
  intros Hid Hscore Hsource Htext. unfold context_entry. cbn.
  rewrite Hid. cbn. rewrite Hscore. cbn. rewrite Hsource. cbn.
  rewrite Htext. reflexivity.
Qed.

(** X12. For hits of the shape the search service sends, whatever their
    number, the context given to the model is the JSON text of the list of
    their [{id, score, content}], one per hit and in the order of
    retrieval. *)
Theorem context_lists_hits_in_order (hits : list (string * Q * string)) :
  context_json world
    (JList (map (fun h => hit (fst (fst h)) (snd (fst h)) (snd h)) hits))
  = ok (json_dumps world
          (JList (map (fun h => context_of_hit (fst (fst h)) (snd (fst h)) (snd h))
                    hits))).
Proof.
  apply context_json_ok.
  eexists. eexists. split; [reflexivity|]. split; [|reflexivity].
  induction hits as [|h hits IH]; simpl; constructor.
  - reflexivity.
  - exact IH.
Qed.

(** X13. A document that lacks one of its keys ends the turn before the
    model is called: the context is not written and the exception of the
    first such document is the one raised. *)
Theorem broken_hit_stops_turn (question : string) (hits : json)
    (good : list json) (bad : json) (rest : list json) (e : exn) :
  outcome_of (retrieve world retriever question 3) = ok hits ->
  Py.iterate hits = ok (good ++ bad :: rest) ->
  Forall (fun doc => exists entry, context_entry doc = ok entry) good ->
  context_entry bad = raise e ->
  context_json world hits = raise e /\
  outcome_of (answer_flow world question) = raise e /\
  filter is_generator_call (trace (answer_flow world question)) = [].
Proof.
  intros Hretr Hiter Hgood Hbad.
  assert (Hctx : context_json world hits = raise e).
  { unfold context_json. rewrite Hiter. cbn.
    rewrite (comprehension_raise _ good bad rest e Hgood Hbad). reflexivity. }
  split; [exact Hctx|].
  unfold answer_flow. rewrite (io_bind_ok _ _ hits Hretr).
  rewrite Hctx. cbn. rewrite app_nil_r.
  split; [reflexivity|apply retrieve_no_generator].
Qed.

End ScriptFacts.

(** X14. The Send button is disabled exactly when the text is blank. *)
Theorem send_disabled_iff_blank (user_text : string) :
  send_disabled user_text = PyStr.blank user_text.
Proof.
  unfold send_disabled. rewrite PyStrFacts.truthy_strip.
  apply negb_involutive.
Qed.

(** ** The store *)

Section MoreStoreFacts.
Context `{MemoryLibrary}.

Lemma _initialize_memory_listed (w : Z) (name : string) (m : Memory) :
  _initialize_memory w name = inr m -> In name strategies.
Proof.
  unfold _initialize_memory, strategies.
  repeat match goal with
         | |- context [String.eqb name ?lit] =>
             destruct (String.eqb_spec name lit) as [->|_];
             [intros _; simpl; tauto|]
         end.
  discriminate.
Qed.

(** The attributes of a store are those it was built with. *)
Lemma reachable_attributes (memory_type0 : string) (w t : Z) (mm : MemoryManager) :
  reachable memory_type0 w t mm ->
  memory_type mm = PyStr.lower memory_type0 /\
  window_size mm = w /\
  token_limit mm = t /\
  In (memory_type mm) strategies.
Proof.
  induction 1 as [mm Hinit|mm u a mm' _ IH Hsave|mm _ IH].
  - unfold __init__ in Hinit.
    destruct (_initialize_memory w (PyStr.lower memory_type0)) as [e|m] eqn:Hm;
      simpl in Hinit; [discriminate|].
    injection Hinit as <-. simpl.
    repeat split. eapply _initialize_memory_listed. exact Hm.
  - unfold save_conversation in Hsave.
    destruct (save_context (memory mm) u a) as [e|m']; simpl in Hsave;
      [discriminate|].
    injection Hsave as <-. exact IH.
  - exact IH.
Qed.

(** X15. The constructor stores the lowered name, the window size and the
    token limit, and no method changes them afterwards: in every state a
    store can reach its name is one of the six listed ones, in lower
    case. *)
Theorem attributes_never_change (memory_type0 : string) (w t : Z)
    (mm : MemoryManager) :
  reachable memory_type0 w t mm ->
  memory_type mm = PyStr.lower memory_type0 /\
  window_size mm = w /\
  token_limit mm = t /\
  In (memory_type mm) strategies.
Proof. exact (reachable_attributes memory_type0 w t mm). Qed.

(** X16. The token limit is stored and passed to no memory class: two
    stores that differ in it alone answer every sequence of calls alike,
    'token_buffer' included. *)
Theorem token_limit_unused (memory_type0 : string) (w t1 t2 : Z)
    (calls : list store_call) :
  session memory_type0 w t1 calls = session memory_type0 w t2 calls.
Proof.
  unfold session, __init__.
  destruct (_initialize_memory w (PyStr.lower memory_type0)) as [e|m];
    simpl; [reflexivity|].
  apply observe_memory. reflexivity.
Qed.

Lemma _initialize_memory_window_only (w1 w2 : Z) (name : string) :
  name <> "window"%string ->
  _initialize_memory w1 name = _initialize_memory w2 name.
Proof.
  intros Hname. unfold _initialize_memory.
  destruct (String.eqb_spec name "buffer"); [reflexivity|].
  destruct (String.eqb_spec name "window"); [contradiction|].
  reflexivity.
Qed.

(** X17. The window size matters to 'window' only: for every other name,
    two stores that differ in it alone answer every sequence of calls
    alike. *)
Theorem window_size_unused_elsewhere (memory_type0 : string) (w1 w2 t : Z)
    (calls : list store_call) :
  PyStr.lower memory_type0 <> "window"%string ->
  session memory_type0 w1 t calls = session memory_type0 w2 t calls.
Proof.
  intros Hname. unfold session, __init__.
  rewrite (_initialize_memory_window_only w1 w2 _ Hname).
  destruct (_initialize_memory w2 (PyStr.lower memory_type0)) as [e|m];
    simpl; [reflexivity|].
  apply observe_memory. reflexivity.
Qed.

(** X18. Clearing brings a buffer or a window back to the state the
    constructor built: whatever was recorded, the cleared store is the
    instance a new call of the constructor returns. *)
Theorem clear_restores_initial (memory_type0 : string) (w t : Z)
    (mm : MemoryManager) :
  In (PyStr.lower memory_type0) ["buffer"; "window"; "summary"] ->
  reachable memory_type0 w t mm ->
  __init__ memory_type0 w t = ok (clear_memory mm).
Proof.
  intros Hplain Hreach.
  pose proof (reachable_well_formed _ _ _ _ Hreach) as Hwf.
  destruct (reachable_attributes _ _ _ _ Hreach) as (Hname & Hw & Ht & _).
  unfold __init__, clear_memory, with_memory.
  rewrite Hname, Hw, Ht.
  destruct (memory mm) as [key rm ms|k key rm ms|c o]; simpl in Hwf.
  - destruct Hwf as (-> & -> & [Hn|Hn]); rewrite Hn; reflexivity.
  - destruct Hwf as (-> & -> & -> & Hn). rewrite Hn. reflexivity.
  - exfalso. destruct Hwf as (_ & Hnb & Hnw & Hns).
    simpl in Hplain. intuition congruence.
Qed.

(** Recording into a full buffer appends the messages of the exchanges. *)
Lemma record_all_buffer (xs : list exchange) (mm : MemoryManager)
    (key : string) (rm : bool) (ms : list BaseMessage) :
  memory mm = ConversationBufferMemory key rm ms ->
  record_all mm xs =
    ok (with_memory mm
          (ConversationBufferMemory key rm
             (ms ++ flat_map exchange_messages xs))).
Proof.
  revert mm ms.
  induction xs as [|x xs IH]; intros mm ms Hm; simpl.
  - rewrite app_nil_r, <- Hm. destruct mm; reflexivity.
  - unfold save_conversation. rewrite Hm. simpl.
    rewrite (IH _ (ms ++ [HumanMessage (fst x); AIMessage (snd x)]))
      by reflexivity.
    rewrite <- app_assoc. reflexivity.
Qed.

(** X19. A full buffer ('buffer', or 'summary') forgets nothing: recording
    any number of exchanges succeeds, and the history afterwards is the
    history before followed by the messages of all of them, in order. *)
Theorem buffer_keeps_everything (memory_type0 : string) (w t : Z)
    (mm : MemoryManager) (xs : list exchange) :
  In (PyStr.lower memory_type0) ["buffer"; "summary"] ->
  reachable memory_type0 w t mm ->
  exists mm' earlier,
    get_chat_history mm = ok (Messages earlier) /\
    record_all mm xs = ok mm' /\
    get_chat_history mm' =
      ok (Messages (earlier ++ flat_map exchange_messages xs)).
Proof.
  intros Hname Hreach.
  pose proof (reachable_well_formed _ _ _ _ Hreach) as Hwf.
  destruct (memory mm) as [key rm ms|k key rm ms|c o] eqn:Hm; simpl in Hwf.
  - destruct Hwf as (-> & -> & _).
    eexists. exists ms.
    split; [|split; [apply (record_all_buffer xs mm _ _ _ Hm)|]].
    + unfold get_chat_history. rewrite Hm. simpl.
      rewrite lookup_singleton_eq. reflexivity.
    + unfold get_chat_history. simpl. rewrite lookup_singleton_eq. reflexivity.
  - exfalso. destruct Hwf as (_ & _ & _ & Hn).
    rewrite Hn in Hname. simpl in Hname. intuition discriminate.
  - exfalso. destruct Hwf as (_ & Hnb & _ & Hns).
    simpl in Hname. intuition congruence.
Qed.

(** X20. A new window that has recorded no more exchanges than its size
    shows all of them: below its size a window is a full buffer. *)
Theorem window_below_size (memory_type0 : string) (w t : Z)
    (mm0 : MemoryManager) (xs : list exchange) :
  PyStr.lower memory_type0 = "window"%string ->
  __init__ memory_type0 w t = ok mm0 ->
  (Z.of_nat (length xs) <= w)%Z ->
  exists mm',
    record_all mm0 xs = ok mm' /\
    get_chat_history mm' = ok (Messages (flat_map exchange_messages xs)).
Proof.
  intros Hname Hinit Hlen.
  unfold __init__ in Hinit. rewrite Hname in Hinit. simpl in Hinit.
  injection Hinit as <-.
  eexists. split; [apply record_all_window; reflexivity|].
  unfold get_chat_history. simpl. rewrite lookup_singleton_eq. simpl.
  destruct (0 <? w)%Z eqn:Hpos.
  - unfold last_n. rewrite exchanges_length.
    replace (2 * length xs - Z.to_nat (w * 2)) with 0 by lia.
    reflexivity.
  - apply Z.ltb_ge in Hpos.
    destruct xs as [|x xs]; [reflexivity|]. simpl in Hlen. lia.
Qed.

Lemma save_context_whole_exchanges (m m' : Memory) (input output : string) :
  whole_exchanges m ->
  save_context m input output = inr m' ->
  whole_exchanges m'.
Proof.
  destruct m as [key rm ms|k key rm ms|c o]; simpl.
  - intros [xs ->] [= <-]. exists (xs ++ [(input, output)]).
    rewrite flat_map_app. reflexivity.
  - intros [xs ->] [= <-]. exists (xs ++ [(input, output)]).
    rewrite flat_map_app. reflexivity.
  - intros _. destruct (llm_save_context c o input output); simpl;
      [discriminate|]. intros [= <-]. exact I.
Qed.

(** The messages of a reachable store are those of whole exchanges. *)
Lemma reachable_whole_exchanges (memory_type0 : string) (w t : Z)
    (mm : MemoryManager) :
  reachable memory_type0 w t mm -> whole_exchanges (memory mm).
Proof.
  induction 1 as [mm Hinit|mm u a mm' _ IH Hsave|mm _ IH].
  - unfold __init__ in Hinit.
    destruct (_initialize_memory w (PyStr.lower memory_type0)) as [e|m] eqn:Hm;
      simpl in Hinit; [discriminate|].
    injection Hinit as <-. simpl.
    unfold _initialize_memory in Hm.
    repeat match type of Hm with
           | context [String.eqb ?n ?lit] =>
               destruct (String.eqb n lit);
               [try (injection Hm as <-; exists []; reflexivity)|]
           end;
      try discriminate;
      match type of Hm with
      | context [llm_new ?c ?key ?rm] =>
          destruct (llm_new c key rm); simpl in Hm;
          [discriminate|injection Hm as <-; exact I]
      end.
  - unfold save_conversation in Hsave.
    destruct (save_context (memory mm) u a) as [e|m'] eqn:Hm;
      simpl in Hsave; [discriminate|].
    injection Hsave as <-. simpl.
    eapply save_context_whole_exchanges; eauto.
  - simpl. destruct (memory mm) as [key rm ms|k key rm ms|c o]; simpl;
      [exists []; reflexivity|exists []; reflexivity|exact I].
Qed.

(** X21. In every state a buffer or a window can reach, asking for the
    history succeeds and gives the messages of whole exchanges, the user's
    message then the assistant's, never half of one; a window of size [w]
    shows at most [w] exchanges, none when [w] is not positive. *)
Theorem history_whole_exchanges (memory_type0 : string) (w t : Z)
    (mm : MemoryManager) :
  In (PyStr.lower memory_type0) ["buffer"; "window"; "summary"] ->
  reachable memory_type0 w t mm ->
  exists xs : list exchange,
    get_chat_history mm = ok (Messages (flat_map exchange_messages xs)) /\
    (PyStr.lower memory_type0 = "window"%string ->
     (Z.of_nat (length xs) <= Z.max 0 w)%Z).
Proof.
  intros Hplain Hreach.
  pose proof (reachable_well_formed _ _ _ _ Hreach) as Hwf.
  pose proof (reachable_whole_exchanges _ _ _ _ Hreach) as Hwhole.
  unfold get_chat_history.
  destruct (memory mm) as [key rm ms|k key rm ms|c o]; simpl in *.
  - destruct Hwf as (-> & -> & Hn). destruct Hwhole as [xs ->].
    exists xs. rewrite lookup_singleton_eq.
    split; [reflexivity|].
    intros Hwin. rewrite Hwin in Hn. intuition discriminate.
  - destruct Hwf as (-> & -> & -> & _). destruct Hwhole as [xs ->].
    rewrite lookup_singleton_eq. simpl.
    destruct (0 <? w)%Z eqn:Hpos.
    + exists (last_n (Z.to_nat w) xs).
      replace (Z.to_nat (w * 2)) with (2 * Z.to_nat w) by lia.
      rewrite last_n_exchanges. split; [reflexivity|].
      intros _. unfold last_n. rewrite length_drop. lia.
    + exists []. split; [reflexivity|]. simpl. lia.
  - exfalso. destruct Hwf as (_ & Hnb & Hnw & Hns).
    simpl in Hplain. intuition congruence.
Qed.

End MoreStoreFacts.

(** ** The further statements at work *)

Lemma summary_test_store_reachable :
  @reachable plain_llm_memory "Summary" 3 1000 summary_test_store.
Proof.
  eapply reach_save with (user_input := "Hello"%string)
                         (bot_output := "Hi there!"%string).
  - apply reach_init. reflexivity.
  - reflexivity.
Qed.

Lemma embedding_failure_stops_turn_witness :
  main_flow failing_embedder_world true "What is AI?" []
  = ([EvEncode "What is AI?"],
     Rerun [user_message "What is AI?";
            assistant_message (JStr "Error: model not loaded")]).
Proof.
  exact (embedding_failure_stops_turn failing_embedder_world "What is AI?" []
           (Exn (OtherException "RuntimeError") "model not loaded")
           eq_refl eq_refl eq_refl).
Defined.

Lemma reply_without_hits_witness :
  outcome_of (retrieve missing_index_world retriever "What is AI?" 3)
    = raise (Exn KeyError "'hits'") /\
  snd (main_flow missing_index_world true "What is AI?" [])
    = Rerun [user_message "What is AI?";
             assistant_message (JStr "Error: 'hits'")].
Proof.
  pose proof (reply_without_hits missing_index_world "What is AI?" []
                [1 # 2; -1 # 4]%Q
                {| status_code := 404;
                   response_json :=
                     ok (JDict [("error", JStr "index_not_found_exception");
                                ("status", JInt 404)]) |}
                [("error", JStr "index_not_found_exception");
                 ("status", JInt 404)]
                eq_refl eq_refl eq_refl eq_refl eq_refl) as [Hretr Hflow].
  split; [exact Hretr|]. rewrite Hflow. reflexivity.
Defined.

Lemma reply_without_completion_witness :
  snd (main_flow no_completion_world true "What is AI?" [])
  = Rerun [user_message "What is AI?";
           assistant_message (JStr "Error: 'completion'")].
Proof.
  exact (reply_without_completion no_completion_world "What is AI?" []
           (JList [hit "d1" (9 # 10) "AI is..."]) "[...]"
           [("message", JStr "throttled")]
           eq_refl eq_refl eq_refl eq_refl eq_refl).
Defined.


Lemma non_exception_escapes_witness :
  snd (main_flow interrupted_world true "What is AI?" [user_message "Hello"])
  = Uncaught (Exn (BaseExceptionOnly "KeyboardInterrupt") "")
      [user_message "Hello"; user_message "What is AI?"].
Proof.
  exact (non_exception_escapes interrupted_world "What is AI?"
           [user_message "Hello"]
           (Exn (BaseExceptionOnly "KeyboardInterrupt") "")
           eq_refl eq_refl eq_refl).
Defined.

Lemma broken_hit_stops_turn_witness :
  outcome_of (answer_flow broken_hit_world "What is AI?")
    = raise (Exn KeyError "'_source'") /\
  filter is_generator_call (trace (answer_flow broken_hit_world "What is AI?"))
    = [].
Proof.
  refine (proj2 (broken_hit_stops_turn broken_hit_world "What is AI?"
                   (JList [hit "d1" (9 # 10) "AI is...";
                           JDict [("_id", JStr "d2");
                                  ("_score", JFloat (1 # 2))]])
                   [hit "d1" (9 # 10) "AI is..."]
                   (JDict [("_id", JStr "d2"); ("_score", JFloat (1 # 2))])
                   [] (Exn KeyError "'_source'")
                   eq_refl eq_refl _ eq_refl)).
  constructor; [eexists; reflexivity|constructor].
Defined.

Lemma attributes_never_change_witness :
  memory_type memory_test_store = PyStr.lower "window" /\
  window_size memory_test_store = 3%Z /\
  token_limit memory_test_store = 1000%Z /\
  In (memory_type memory_test_store) strategies.
Proof.
  exact (@attributes_never_change plain_llm_memory "window" 3 1000
           memory_test_store memory_test_store_reachable).
Defined.

Lemma window_size_unused_elsewhere_witness :
  @session plain_llm_memory "Buffer" 1 1000
    [DoRecord "a" "1"; DoRecord "b" "2"; DoHistory]
  = @session plain_llm_memory "Buffer" 5 1000
      [DoRecord "a" "1"; DoRecord "b" "2"; DoHistory].
Proof.
  apply (@window_size_unused_elsewhere plain_llm_memory "Buffer" 1 5 1000).
  vm_compute. discriminate.
Defined.

Lemma clear_restores_initial_witness :
  @__init__ plain_llm_memory "window" 3 1000 = ok (clear_memory memory_test_store).
Proof.
  apply (@clear_restores_initial plain_llm_memory "window" 3 1000).
  - simpl. auto.
  - exact memory_test_store_reachable.
Defined.

Lemma buffer_keeps_everything_witness :
  exists mm' earlier,
    get_chat_history summary_test_store = ok (Messages earlier) /\
    record_all summary_test_store [("a", "1"); ("b", "2")] = ok mm' /\
    get_chat_history mm' =
      ok (Messages (earlier ++
                    flat_map exchange_messages [("a", "1"); ("b", "2")])).
Proof.
  apply (@buffer_keeps_everything plain_llm_memory "Summary" 3 1000).
  - simpl. auto.
  - exact summary_test_store_reachable.
Defined.

Lemma window_below_size_witness :
  exists mm',
    record_all fresh_window_store [("a", "1"); ("b", "2"); ("c", "3")] = ok mm' /\
    get_chat_history mm' =
      ok (Messages (flat_map exchange_messages
                      [("a", "1"); ("b", "2"); ("c", "3")])).
Proof.
  apply (@window_below_size plain_llm_memory "window" 3 1000).
  - reflexivity.
  - reflexivity.
  - simpl. lia.
Defined.

Lemma history_whole_exchanges_witness :
  exists xs : list exchange,
    get_chat_history memory_test_store
      = ok (Messages (flat_map exchange_messages xs)) /\
    (PyStr.lower "window" = "window"%string ->
     (Z.of_nat (length xs) <= Z.max 0 3)%Z).
Proof.
  apply (@history_whole_exchanges plain_llm_memory "window" 3 1000).
  - simpl. auto.
  - exact memory_test_store_reachable.
Defined.
